(** * bdd-api-auto: the JSON structural matcher and the fixture loader

    A shallow embedding of [utils/schema_validation.py],
    [utils/file_handle.py], [utils/common.py] and the lookups of
    [utils/str_handle.py], and the properties of the specification that
    concern them.

    Python values that reach the matcher are decoded JSON documents, so
    the embedding works over a JSON value type.  The error accumulator
    [errors] (a closure variable of [validate_json_schema]) is threaded
    as explicit state, and Python exceptions are an explicit outcome.
    [Module Store] has the matcher once more with [errors] as a list
    object in a store that all calls share, for what holds across
    calls. *)

From Stdlib Require Import String Ascii List ZArith Bool Lia.
From Stdlib Require Import DecimalString.
From Stdlib Require Import Floats.SpecFloat.
Import ListNotations.
Local Open Scope string_scope.
Local Open Scope Z_scope.
Set Warnings "-register-all".

(** ** Values *)

(** A decoded JSON document, as [json.load] and [response.json()] build
    it: [None], [bool], [int], [float], [str], [list] and [dict].  A
    [dict] keeps insertion order; it is an association list here, with
    the first binding of a key being the one [dict.get] sees. *)
Inductive json : Type :=
| JNull
| JBool (b : bool)
| JInt (z : Z)
| JFloat (f : spec_float)
| JStr (s : string)
| JArr (items : list json)
| JObj (fields : list (string * json)).

(** ** Induction on JSON documents *)

Section JsonInduction.

Variable P : json -> Prop.
Hypothesis HNull : P JNull.
Hypothesis HBool : forall b, P (JBool b).
Hypothesis HInt : forall z, P (JInt z).
Hypothesis HFloat : forall f, P (JFloat f).
Hypothesis HStr : forall s, P (JStr s).
Hypothesis HArr : forall items, Forall P items -> P (JArr items).
Hypothesis HObj :
  forall fields, Forall (fun kv => P (snd kv)) fields -> P (JObj fields).

Fixpoint json_nested_ind (v : json) : P v :=
  match v with
  | JNull => HNull
  | JBool b => HBool b
  | JInt z => HInt z
  | JFloat f => HFloat f
  | JStr s => HStr s
  | JArr items =>
      HArr items
        ((fix all (l : list json) : Forall P l :=
            match l with
            | [] => Forall_nil P
            | x :: rest => Forall_cons x (json_nested_ind x) (all rest)
            end) items)
  | JObj fields =>
      HObj fields
        ((fix all (l : list (string * json))
            : Forall (fun kv => P (snd kv)) l :=
            match l with
            | [] => Forall_nil _
            | kv :: rest =>
                Forall_cons kv (json_nested_ind (snd kv)) (all rest)
            end) fields)
  end.

End JsonInduction.

(** The scalar values a comparison of the matcher has on its schema side:
    [response_value != schema_value] is only reached with a [str], a
    number, a [bool] or [None] as [schema_value]. *)
Inductive literal : Type :=
| LNone
| LBool (b : bool)
| LInt (z : Z)
| LFloat (f : spec_float)
| LStr (s : string).

(** Exceptions the embedded code can raise.  [ReError] stands for
    whatever [re.match] raised on the pattern.  The interpreter's limits
    (recursion depth, memory) are outside the embedding. *)
Inductive pyexn : Type :=
| AttributeError (type_name attribute : string)
| ReError (pattern : string)
| MultipleFilesFound (pattern dir : string) (found : list string)
| NoFileFound (pattern dir : string)
| OSError (path : string)
| JSONDecodeError (path : string).

Inductive result (A : Type) : Type :=
| Ok (a : A)
| Raise (e : pyexn).
Arguments Ok {A} a.
Arguments Raise {A} e.

(** ** Python built-ins used by the matcher *)

Module Py.

(** [type(v).__name__] *)
Definition type_name (v : json) : string :=
  match v with
  | JNull => "NoneType"
  | JBool _ => "bool"
  | JInt _ => "int"
  | JFloat _ => "float"
  | JStr _ => "str"
  | JArr _ => "list"
  | JObj _ => "dict"
  end.

Definition is_none (v : json) : bool :=
  match v with JNull => true | _ => false end.

(** [isinstance(v, str)] *)
Definition is_str (v : json) : bool :=
  match v with JStr _ => true | _ => false end.

(** [isinstance(v, (int, float))]: [bool] is a subclass of [int]. *)
Definition is_number (v : json) : bool :=
  match v with JInt _ | JFloat _ | JBool _ => true | _ => false end.

(** [isinstance(v, bool)] *)
Definition is_bool (v : json) : bool :=
  match v with JBool _ => true | _ => false end.

(** [isinstance(v, dict)] *)
Definition is_dict (v : json) : bool :=
  match v with JObj _ => true | _ => false end.

(** [isinstance(v, list)] *)
Definition is_list (v : json) : bool :=
  match v with JArr _ => true | _ => false end.

(** [s.startswith(p)] *)
Fixpoint startswith (s p : string) {struct p} : bool :=
  match p with
  | EmptyString => true
  | String c p' =>
      match s with
      | EmptyString => false
      | String d s' => Ascii.eqb d c && startswith s' p'
      end
  end.

(** [s[n:]] *)
Fixpoint slice_from (n : nat) (s : string) : string :=
  match n, s with
  | O, _ => s
  | S n', String _ s' => slice_from n' s'
  | S _, EmptyString => EmptyString
  end.

(** [str(i)] for an [int]. *)
Definition str_of_int (z : Z) : string :=
  NilZero.string_of_int (Z.to_int z).

(** [str(n)] for an index of [enumerate]. *)
Definition str_of_nat (n : nat) : string :=
  NilZero.string_of_uint (Nat.to_uint n).

(** The integer a [bool] is. *)
Definition int_of_bool (b : bool) : Z := if b then 1 else 0.

(** [int == float]: Python compares the exact mathematical values. *)
Definition int_float_eqb (z : Z) (f : spec_float) : bool :=
  match f with
  | S754_zero _ => z =? 0
  | S754_infinity _ => false
  | S754_nan => false
  | S754_finite s m e =>
      let v := if s then Z.neg m else Z.pos m in
      if 0 <=? e then z =? v * 2 ^ e else z * 2 ^ (- e) =? v
  end.

(** [v == l] for a scalar [l]. *)
Definition eq (v : json) (l : literal) : bool :=
  match l, v with
  | LNone, JNull => true
  | LStr t, JStr s => String.eqb s t
  | LInt b, JInt a => a =? b
  | LInt b, JBool a => int_of_bool a =? b
  | LInt b, JFloat a => int_float_eqb b a
  | LBool b, JInt a => a =? int_of_bool b
  | LBool b, JBool a => Bool.eqb a b
  | LBool b, JFloat a => int_float_eqb (int_of_bool b) a
  | LFloat b, JInt a => int_float_eqb a b
  | LFloat b, JBool a => int_float_eqb (int_of_bool a) b
  | LFloat b, JFloat a => SFeqb a b
  | _, _ => false
  end.

(** [v == c] for a [str] constant [c]. *)
Definition eq_str (v : json) (c : string) : bool := eq v (LStr c).

(** [d.get(key)]: the value bound to [key], or [None]. *)
Fixpoint dict_get (fields : list (string * json)) (key : string) : json :=
  match fields with
  | [] => JNull
  | (k, v) :: rest => if String.eqb k key then v else dict_get rest key
  end.

(** [sep.join(parts)] *)
Definition join (sep : string) (parts : list string) : string :=
  String.concat sep parts.

Definition newline : string := String (ascii_of_nat 10) EmptyString.

End Py.

(** ** The accumulator monad

    A computation reads and extends the list [errors] and either returns
    or raises; a raised exception discards the accumulator, as the list
    is local to the call of [validate_json_schema] that is unwound. *)

Definition M (A : Type) : Type := list string -> result (A * list string).

Definition ret {A} (a : A) : M A := fun errors => Ok (a, errors).

Definition bind {A B} (m : M A) (k : A -> M B) : M B :=
  fun errors =>
    match m errors with
    | Ok (a, errors') => k a errors'
    | Raise e => Raise e
    end.

Definition raise {A} (e : pyexn) : M A := fun _ => Raise e.

(** [errors.append(msg)] *)
Definition errors_append (msg : string) : M unit :=
  fun errors => Ok (tt, (errors ++ [msg])%list).

Declare Scope py_scope.
Delimit Scope py_scope with py.
Notation "x <- m ;; k" := (bind m (fun x => k))
  (at level 61, m at next level, right associativity) : py_scope.
Notation "m ;; k" := (bind m (fun _ => k))
  (at level 61, right associativity) : py_scope.
Local Open Scope py_scope.

(** ** schema_validation.py *)

Definition OPTIONAL_FIELD_PREFIX : string := "##".
Definition OPTIONAL_LIST_FIELD_PREFIX : string := "##[]".
Definition PRESENT_FIELD : string := "#present".
Definition IGNORE_FIELD : string := "#ignore".
Definition NULL_FIELD : string := "#null".
Definition EMPTY_LIST_FIELD : string := "#[]".
Definition STRING_FIELD : string := "#string".
Definition NUMBER_FIELD : string := "#number".
Definition BOOLEAN_FIELD : string := "#boolean".
Definition OBJECT_FIELD : string := "#object".
Definition ARRAY_FIELD : string := "#array".
Definition NOTNULL_FIELD : string := "#notnull".
Definition REGEX_FIELD : string := "#regex ".

(** [schema_value.startswith(prefix)] evaluated as an attribute access
    on an arbitrary value: only [str] has the method. *)
Definition startswith_method (v : json) (p : string) : M bool :=
  match v with
  | JStr s => ret (Py.startswith s p)
  | _ => raise (AttributeError (Py.type_name v) "startswith")
  end.

(** Lines 28-30: the optional prefix is detected and stripped. *)
Definition is_optional_of (schema_value : json) : bool :=
  match schema_value with
  | JStr s => Py.startswith s OPTIONAL_FIELD_PREFIX
  | _ => false
  end.

Definition strip_optional (schema_value : json) : json :=
  match schema_value with
  | JStr s =>
      if Py.startswith s OPTIONAL_FIELD_PREFIX
      then JStr (Py.slice_from (String.length OPTIONAL_FIELD_PREFIX) s)
      else schema_value
  | _ => schema_value
  end.

(** The schema value as the scalar it is when a comparison reaches it. *)
Definition literal_of (schema_value : json) : literal :=
  match schema_value with
  | JBool b => LBool b
  | JInt z => LInt z
  | JFloat f => LFloat f
  | JStr s => LStr s
  | _ => LNone
  end.

(** The three loops of [_validate_field]; [body] is the loop body. *)
Section Loops.

(** [for index, item in enumerate(items): body] *)
Variable body_enumerate : nat -> json -> M unit.

Fixpoint for_enumerate (index : nat) (items : list json) : M unit :=
  match items with
  | [] => ret tt
  | item :: rest =>
      body_enumerate index item ;; for_enumerate (S index) rest
  end.

(** [for index, (x, y) in enumerate(zip(xs, ys)): body]; [zip] stops
    with the shorter list. *)
Variable body_zip : nat -> json -> json -> M unit.

Fixpoint for_enumerate_zip (index : nat) (xs ys : list json) {struct ys}
  : M unit :=
  match xs, ys with
  | x :: xs', y :: ys' =>
      body_zip index x y ;; for_enumerate_zip (S index) xs' ys'
  | _, _ => ret tt
  end.

(** [for key, val in d.items(): body] *)
Variable body_items : string -> json -> M unit.

Fixpoint for_items (fields : list (string * json)) : M unit :=
  match fields with
  | [] => ret tt
  | (key, val) :: rest => body_items key val ;; for_items rest
  end.

End Loops.

Section Matcher.

(** [re.match(pattern, string)] of the standard library: [Some true]
    when a match object is returned, [Some false] when [None] is, and
    [None] when the call raises: [re.error] for a pattern that does not
    compile, or another exception of the library such as the
    [OverflowError] of an oversized repetition count. *)
Variable re_match : string -> string -> option bool.

(** [str(v)] for a [float], a [list] or a [dict], as the interpreter
    formats them inside an f-string. *)
Variable repr_compound : json -> string.

(** [str(v)], the conversion an f-string applies to [{v}]. *)
Definition py_str (v : json) : string :=
  match v with
  | JNull => "None"
  | JBool true => "True"
  | JBool false => "False"
  | JInt z => Py.str_of_int z
  | JStr s => s
  | _ => repr_compound v
  end.

(** Lines 47-97: the branch [isinstance(schema_value, str)], on the
    stripped string [s].  The statements that follow the unconditional
    [return] of line 51 (lines 53-66, the lookup of a referenced schema
    and the walk over the items) are never executed and have no
    counterpart. *)
Definition validate_str (response_value : json) (s field_path : string)
  : M unit :=
  if Py.startswith s EMPTY_LIST_FIELD then
    match response_value with
    | JArr [] => ret tt
    | _ =>
        errors_append
          ("Validation Error at '" ++ field_path ++ "' expected an array, got "
             ++ Py.type_name response_value ++ ".")
    end
  else if String.eqb s STRING_FIELD then
    if negb (Py.is_str response_value) then
      errors_append
        ("Validation Error at '" ++ field_path ++ "': expected string, got "
           ++ Py.type_name response_value ++ ".")
    else ret tt
  else if String.eqb s NUMBER_FIELD then
    if negb (Py.is_number response_value) then
      errors_append
        ("Validation Error at '" ++ field_path ++ "': expected number, got "
           ++ Py.type_name response_value ++ ".")
    else ret tt
  else if String.eqb s BOOLEAN_FIELD then
    if negb (Py.is_bool response_value) then
      errors_append
        ("Validation Error at '" ++ field_path ++ "': expected boolean, got "
           ++ Py.type_name response_value ++ ".")
    else ret tt
  else if String.eqb s OBJECT_FIELD then
    if negb (Py.is_dict response_value) then
      errors_append
        ("Validation Error at '" ++ field_path ++ "': expected object, got "
           ++ Py.type_name response_value ++ ".")
    else ret tt
  else if String.eqb s ARRAY_FIELD then
    if negb (Py.is_list response_value) then
      errors_append
        ("Validation Error at '" ++ field_path ++ "': expected array, got "
           ++ Py.type_name response_value ++ ".")
    else ret tt
  else if String.eqb s NOTNULL_FIELD then
    if Py.is_none response_value then
      errors_append
        ("Validation Error at '" ++ field_path ++ "': expected not null value.")
    else ret tt
  else if String.eqb s NULL_FIELD then
    if negb (Py.is_none response_value) then
      errors_append
        ("Validation Error at '" ++ field_path
           ++ "': expected null value. got " ++ Py.type_name response_value
           ++ " with value '" ++ py_str response_value ++ "'.")
    else ret tt
  else if Py.startswith s REGEX_FIELD then
    let pattern := Py.slice_from (String.length REGEX_FIELD) s in
    match response_value with
    | JStr r =>
        match re_match pattern r with
        | None => raise (ReError pattern)
        | Some true => ret tt
        | Some false =>
            errors_append
              ("Validation Error at '" ++ field_path ++ "': value '"
                 ++ py_str response_value ++ "' does not match regex '"
                 ++ pattern ++ "'.")
        end
    | _ =>
        errors_append
          ("Validation Error at '" ++ field_path
             ++ "': expected string to match regex '" ++ pattern ++ "', got "
             ++ Py.type_name response_value ++ ".")
    end
  else
    if negb (Py.eq response_value (LStr s)) then
      errors_append
        ("Validation Error at '" ++ field_path ++ "': expected value '"
           ++ s ++ "', got '" ++ py_str response_value ++ "'.")
    else ret tt.

(** Lines 127-129: the final [else], reached with a number, a [bool] or
    [None] as schema value. *)
Definition validate_literal (response_value schema_value : json)
    (field_path : string) : M unit :=
  if negb (Py.eq response_value (literal_of schema_value)) then
    errors_append
      ("Validation Error at '" ++ field_path ++ "': expected value '"
         ++ py_str schema_value ++ "', got '" ++ py_str response_value ++ "'.")
  else ret tt.

(** Line 43: the guard of the "missing value" diagnostic, a chain of
    [and] evaluated left to right; its last conjunct calls
    [schema_value.startswith]. *)
Definition missing_value_guard (is_optional : bool)
    (response_value schema_value : json) : M bool :=
  if negb is_optional
     && Py.is_none response_value
     && negb (Py.eq_str schema_value NULL_FIELD)
     && negb (Py.is_list schema_value || Py.is_dict schema_value)
     && negb (Py.is_str schema_value)
  then startswith_method schema_value EMPTY_LIST_FIELD
  else ret false.

(** [_validate_field], lines 24-129.  The recursion is on the schema
    node.  The dispatch of lines 47, 98 and 110 is written on the node as
    passed: stripping the optional prefix rebinds [schema_value] only
    when it is a [str], and to a [str]. *)
Fixpoint _validate_field (response_value schema_value : json)
    (field_path : string) {struct schema_value} : M unit :=
  let original_schema_value := schema_value in
  let is_optional := is_optional_of original_schema_value in
  let stripped := strip_optional original_schema_value in
  if is_optional && Py.is_none response_value then ret tt
  else if Py.eq_str stripped PRESENT_FIELD then
    if Py.is_none response_value then
      errors_append
        ("Validation Error: Field '" ++ field_path
           ++ "' is missing but expected to be present.")
    else ret tt
  else if Py.eq_str stripped IGNORE_FIELD then ret tt
  else
    missing <- missing_value_guard is_optional response_value stripped ;;
    if (missing : bool) then
      errors_append
        ("Validation Error: Expected a value, but field '" ++ field_path
           ++ "' is missing.")
    else
      match schema_value with
      | JStr _ =>
          match stripped with
          | JStr s => validate_str response_value s field_path
          | _ => ret tt
          end
      | JObj schema_fields =>
          match response_value with
          | JObj response_fields =>
              for_items
                (fun key val =>
                   _validate_field (Py.dict_get response_fields key) val
                     (field_path ++ "." ++ key))
                schema_fields
          | _ =>
              errors_append
                ("Validation Error at '" ++ field_path
                   ++ "': expected object, got "
                   ++ Py.type_name response_value ++ ".")
          end
      | JArr schema_items =>
          match schema_items with
          | [(JObj _ | JArr _ | JStr _) as item_schema] =>
              match response_value with
              | JArr response_items =>
                  for_enumerate
                    (fun index item =>
                       _validate_field item item_schema
                         (field_path ++ "[" ++ Py.str_of_nat index ++ "]"))
                    O response_items
              | _ =>
                  errors_append
                    ("Validation Error at '" ++ field_path
                       ++ "': expected array, got "
                       ++ Py.type_name response_value ++ ".")
              end
          | _ =>
              match response_value with
              | JArr response_items =>
                  if negb (Nat.eqb (List.length response_items)
                             (List.length schema_items))
                  then
                    errors_append
                      ("Validation Error at '" ++ field_path
                         ++ "': expected array of length "
                         ++ Py.str_of_nat (List.length schema_items)
                         ++ ", got "
                         ++ Py.str_of_nat (List.length response_items) ++ ".")
                  else
                    for_enumerate_zip
                      (fun index resp_item schema_item =>
                         _validate_field resp_item schema_item
                           (field_path ++ "[" ++ Py.str_of_nat index ++ "]"))
                      O response_items schema_items
              | _ =>
                  errors_append
                    ("Validation Error at '" ++ field_path
                       ++ "': expected array, got "
                       ++ Py.type_name response_value ++ ".")
              end
          end
      | _ => validate_literal response_value schema_value field_path
      end.

(** [validate_json_schema], lines 21-134. *)
Definition validate_json_schema (response_data schema : json)
  : result (bool * string) :=
  match _validate_field response_data schema "" [] with
  | Raise e => Raise e
  | Ok (_, errors) =>
      match errors with
      | [] => Ok (true, "Validation successful.")
      | _ => Ok (false, Py.join Py.newline errors)
      end
  end.

End Matcher.

(** ** file_handle.py and common.py *)

(** The part of the file system the two loaders observe. *)
Record filesystem : Type := {
  (** [Path(p).is_file()] *)
  is_file : string -> bool;
  (** [os.path.exists(p)] *)
  path_exists : string -> bool;
  (** [Path(dir).rglob(pattern)], in the order the generator yields *)
  rglob : string -> string -> list string;
  (** [str(Path(p).resolve())] *)
  resolve : string -> string;
  (** [open(p, 'r')] and the text read from it; [None] when opening
      raises *)
  read_text : string -> option string
}.

(** [get_abs_file_path], file_handle.py lines 5-13.  The exceptions built
    from f-strings are kept as their constituents. *)
Definition get_abs_file_path (fs : filesystem) (pattern elative_path : string)
  : result string :=
  if is_file fs pattern then Ok (resolve fs pattern)
  else
    let found_files :=
      List.filter (is_file fs) (rglob fs elative_path pattern) in
    if (1 <? List.length found_files)%nat then
      Raise (MultipleFilesFound pattern elative_path found_files)
    else if (List.length found_files =? 0)%nat then
      Raise (NoFileFound pattern elative_path)
    else Ok (resolve fs (List.hd EmptyString found_files)).

(** What [read_json_file] does to the outside world, in order. *)
Inductive io_event : Type :=
| EvExists (path : string)
| EvOpen (path : string)
| EvJsonLoad (path : string).

(** [read_json_file], common.py lines 4-8, with the calls it makes
    recorded.  [json_load] is [json.load] on the text of the file:
    [None] when it raises [JSONDecodeError]. *)
Definition read_json_file (json_load : string -> option json)
    (fs : filesystem) (file_path : string) : result json * list io_event :=
  if path_exists fs file_path then
    match read_text fs file_path with
    | None => (Raise (OSError file_path), [EvExists file_path; EvOpen file_path])
    | Some text =>
        match json_load text with
        | None =>
            (Raise (JSONDecodeError file_path),
             [EvExists file_path; EvOpen file_path; EvJsonLoad file_path])
        | Some doc =>
            (Ok doc,
             [EvExists file_path; EvOpen file_path; EvJsonLoad file_path])
        end
    end
  else (Ok (JObj []), [EvExists file_path]).

(** ** The matcher over the store of list objects

    The same code once more, with the list [errors] as an object of the
    interpreter's store rather than as the state of the walk: line 22
    creates a new list object, the closure [_validate_field] holds its
    address, and [errors.append] writes to the object at that address.
    Objects that earlier calls created are in the store as well, so a
    run of calls can be followed through one store.  An exception
    leaves the store as it is at that point. *)

Module Store.

(** The list objects created so far: the object at address [n] is the
    [n]-th element. *)
Definition heap : Type := list (list string).
Definition addr : Type := nat.

Definition H (A : Type) : Type := heap -> result A * heap.

Definition ret {A} (a : A) : H A := fun h => (Ok a, h).

Definition bind {A B} (m : H A) (k : A -> H B) : H B :=
  fun h =>
    match m h with
    | (Ok a, h') => k a h'
    | (Raise e, h') => (Raise e, h')
    end.

Definition raise {A} (e : pyexn) : H A := fun h => (Raise e, h).

(** The store with the object at [a] replaced by [f] of it. *)
Fixpoint update (a : addr) (f : list string -> list string) (h : heap)
  : heap :=
  match a, h with
  | O, object :: rest => f object :: rest
  | S a', object :: rest => object :: update a' f rest
  | _, [] => []
  end.

(** [[]]: a new, empty list object, and its address. *)
Definition new_list : H addr :=
  fun h => (Ok (List.length h), (h ++ [[]])%list).

(** [errors.append(msg)] for the object at [errors]. *)
Definition list_append (errors : addr) (msg : string) : H unit :=
  fun h => (Ok tt, update errors (fun object => (object ++ [msg])%list) h).

(** The elements of the object at [errors], as [if errors:] and
    [join] read them. *)
Definition list_read (errors : addr) : H (list string) :=
  fun h => (Ok (List.nth errors h []), h).

Declare Scope store_scope.
Notation "x <- m ;; k" := (bind m (fun x => k))
  (at level 61, m at next level, right associativity) : store_scope.
Notation "m ;; k" := (bind m (fun _ => k))
  (at level 61, right associativity) : store_scope.
Local Open Scope store_scope.

(** [schema_value.startswith(prefix)] on an arbitrary value. *)
Definition startswith_method (v : json) (p : string) : H bool :=
  match v with
  | JStr s => ret (Py.startswith s p)
  | _ => raise (AttributeError (Py.type_name v) "startswith")
  end.

(** The three loops, over the store. *)
Section Loops.

(** [for index, item in enumerate(items): body] *)
Variable body_enumerate : nat -> json -> H unit.

Fixpoint for_enumerate (index : nat) (items : list json) : H unit :=
  match items with
  | [] => ret tt
  | item :: rest =>
      body_enumerate index item ;; for_enumerate (S index) rest
  end.

(** [for index, (x, y) in enumerate(zip(xs, ys)): body]; [zip] stops
    with the shorter list. *)
Variable body_zip : nat -> json -> json -> H unit.

Fixpoint for_enumerate_zip (index : nat) (xs ys : list json) {struct ys}
  : H unit :=
  match xs, ys with
  | x :: xs', y :: ys' =>
      body_zip index x y ;; for_enumerate_zip (S index) xs' ys'
  | _, _ => ret tt
  end.

(** [for key, val in d.items(): body] *)
Variable body_items : string -> json -> H unit.

Fixpoint for_items (fields : list (string * json)) : H unit :=
  match fields with
  | [] => ret tt
  | (key, val) :: rest => body_items key val ;; for_items rest
  end.

End Loops.

Section Matcher.

Variable re_match : string -> string -> option bool.
Variable repr_compound : json -> string.

(** Lines 47-97, with [errors] the address the closure variable holds;
    lines 53-66 are unreachable as before. *)
Definition validate_str (errors : addr) (response_value : json)
    (s field_path : string) : H unit :=
  if Py.startswith s EMPTY_LIST_FIELD then
    match response_value with
    | JArr [] => ret tt
    | _ =>
        list_append errors
          ("Validation Error at '" ++ field_path ++ "' expected an array, got "
             ++ Py.type_name response_value ++ ".")
    end
  else if String.eqb s STRING_FIELD then
    if negb (Py.is_str response_value) then
      list_append errors
        ("Validation Error at '" ++ field_path ++ "': expected string, got "
           ++ Py.type_name response_value ++ ".")
    else ret tt
  else if String.eqb s NUMBER_FIELD then
    if negb (Py.is_number response_value) then
      list_append errors
        ("Validation Error at '" ++ field_path ++ "': expected number, got "
           ++ Py.type_name response_value ++ ".")
    else ret tt
  else if String.eqb s BOOLEAN_FIELD then
    if negb (Py.is_bool response_value) then
      list_append errors
        ("Validation Error at '" ++ field_path ++ "': expected boolean, got "
           ++ Py.type_name response_value ++ ".")
    else ret tt
  else if String.eqb s OBJECT_FIELD then
    if negb (Py.is_dict response_value) then
      list_append errors
        ("Validation Error at '" ++ field_path ++ "': expected object, got "
           ++ Py.type_name response_value ++ ".")
    else ret tt
  else if String.eqb s ARRAY_FIELD then
    if negb (Py.is_list response_value) then
      list_append errors
        ("Validation Error at '" ++ field_path ++ "': expected array, got "
           ++ Py.type_name response_value ++ ".")
    else ret tt
  else if String.eqb s NOTNULL_FIELD then
    if Py.is_none response_value then
      list_append errors
        ("Validation Error at '" ++ field_path ++ "': expected not null value.")
    else ret tt
  else if String.eqb s NULL_FIELD then
    if negb (Py.is_none response_value) then
      list_append errors
        ("Validation Error at '" ++ field_path
           ++ "': expected null value. got " ++ Py.type_name response_value
           ++ " with value '" ++ py_str repr_compound response_value ++ "'.")
    else ret tt
  else if Py.startswith s REGEX_FIELD then
    let pattern := Py.slice_from (String.length REGEX_FIELD) s in
    match response_value with
    | JStr r =>
        match re_match pattern r with
        | None => raise (ReError pattern)
        | Some true => ret tt
        | Some false =>
            list_append errors
              ("Validation Error at '" ++ field_path ++ "': value '"
                 ++ py_str repr_compound response_value ++ "' does not match regex '"
                 ++ pattern ++ "'.")
        end
    | _ =>
        list_append errors
          ("Validation Error at '" ++ field_path
             ++ "': expected string to match regex '" ++ pattern ++ "', got "
             ++ Py.type_name response_value ++ ".")
    end
  else
    if negb (Py.eq response_value (LStr s)) then
      list_append errors
        ("Validation Error at '" ++ field_path ++ "': expected value '"
           ++ s ++ "', got '" ++ py_str repr_compound response_value ++ "'.")
    else ret tt.

(** Lines 127-129. *)
Definition validate_literal (errors : addr)
    (response_value schema_value : json) (field_path : string) : H unit :=
  if negb (Py.eq response_value (literal_of schema_value)) then
    list_append errors
      ("Validation Error at '" ++ field_path ++ "': expected value '"
         ++ py_str repr_compound schema_value ++ "', got '" ++ py_str repr_compound response_value ++ "'.")
  else ret tt.

(** Line 43. *)
Definition missing_value_guard (is_optional : bool)
    (response_value schema_value : json) : H bool :=
  if negb is_optional
     && Py.is_none response_value
     && negb (Py.eq_str schema_value NULL_FIELD)
     && negb (Py.is_list schema_value || Py.is_dict schema_value)
     && negb (Py.is_str schema_value)
  then startswith_method schema_value EMPTY_LIST_FIELD
  else ret false.

(** [_validate_field], lines 24-129, as a closure over [errors]. *)
Fixpoint _validate_field (errors : addr) (response_value schema_value : json)
    (field_path : string) {struct schema_value} : H unit :=
  let original_schema_value := schema_value in
  let is_optional := is_optional_of original_schema_value in
  let stripped := strip_optional original_schema_value in
  if is_optional && Py.is_none response_value then ret tt
  else if Py.eq_str stripped PRESENT_FIELD then
    if Py.is_none response_value then
      list_append errors
        ("Validation Error: Field '" ++ field_path
           ++ "' is missing but expected to be present.")
    else ret tt
  else if Py.eq_str stripped IGNORE_FIELD then ret tt
  else
    missing <- missing_value_guard is_optional response_value stripped ;;
    if (missing : bool) then
      list_append errors
        ("Validation Error: Expected a value, but field '" ++ field_path
           ++ "' is missing.")
    else
      match schema_value with
      | JStr _ =>
          match stripped with
          | JStr s => validate_str errors response_value s field_path
          | _ => ret tt
          end
      | JObj schema_fields =>
          match response_value with
          | JObj response_fields =>
              for_items
                (fun key val =>
                   _validate_field errors (Py.dict_get response_fields key) val
                     (field_path ++ "." ++ key))
                schema_fields
          | _ =>
              list_append errors
                ("Validation Error at '" ++ field_path
                   ++ "': expected object, got "
                   ++ Py.type_name response_value ++ ".")
          end
      | JArr schema_items =>
          match schema_items with
          | [(JObj _ | JArr _ | JStr _) as item_schema] =>
              match response_value with
              | JArr response_items =>
                  for_enumerate
                    (fun index item =>
                       _validate_field errors item item_schema
                         (field_path ++ "[" ++ Py.str_of_nat index ++ "]"))
                    O response_items
              | _ =>
                  list_append errors
                    ("Validation Error at '" ++ field_path
                       ++ "': expected array, got "
                       ++ Py.type_name response_value ++ ".")
              end
          | _ =>
              match response_value with
              | JArr response_items =>
                  if negb (Nat.eqb (List.length response_items)
                             (List.length schema_items))
                  then
                    list_append errors
                      ("Validation Error at '" ++ field_path
                         ++ "': expected array of length "
                         ++ Py.str_of_nat (List.length schema_items)
                         ++ ", got "
                         ++ Py.str_of_nat (List.length response_items) ++ ".")
                  else
                    for_enumerate_zip
                      (fun index resp_item schema_item =>
                         _validate_field errors resp_item schema_item
                           (field_path ++ "[" ++ Py.str_of_nat index ++ "]"))
                      O response_items schema_items
              | _ =>
                  list_append errors
                    ("Validation Error at '" ++ field_path
                       ++ "': expected array, got "
                       ++ Py.type_name response_value ++ ".")
              end
          end
      | _ => validate_literal errors response_value schema_value field_path
      end.

(** [validate_json_schema], lines 21-134: [errors = []] creates the
    list object, the walk appends to it, and the verdict is read from
    it. *)
Definition validate_json_schema (response_data schema : json)
  : H (bool * string) :=
  errors <- new_list ;;
  _validate_field errors response_data schema "" ;;
  found <- list_read errors ;;
  match found with
  | [] => ret (true, "Validation successful.")
  | _ => ret (false, Py.join Py.newline found)
  end.

(** A run of test steps through one store: every step calls
    [validate_json_schema]; an exception fails the step and the run
    goes on with the store as the step left it. *)
Fixpoint session (calls : list (json * json)) (h : heap)
  : list (result (bool * string)) * heap :=
  match calls with
  | [] => ([], h)
  | (response_data, schema) :: rest =>
      let (outcome, h') := validate_json_schema response_data schema h in
      let (later, h'') := session rest h' in
      (outcome :: later, h'')
  end.

End Matcher.

End Store.

(** ** Reading results *)

(** A walk over the store that does to the object at [errors] what the
    walk over the accumulator does to its state: where the one returns
    with new contents the other returns with the object holding them and
    the rest of the store as it was; where the one raises the other
    raises the same, and has changed no other object. *)
Definition tracks {A} (errors : Store.addr) (m : M A) (hm : Store.H A)
  : Prop :=
  forall h,
    (errors < List.length h)%nat ->
    match m (List.nth errors h []) with
    | Ok (a, contents) =>
        hm h = (Ok a, Store.update errors (fun _ => contents) h)
    | Raise e =>
        exists h',
          hm h = (Raise e, h')
          /\ List.length h' = List.length h
          /\ forall b, b <> errors -> List.nth b h' [] = List.nth b h []
    end.

(** The diagnostics a walk leaves in a fresh accumulator. *)
Definition diagnostics (m : M unit) : result (list string) :=
  match m [] with
  | Ok (_, errors) => Ok errors
  | Raise e => Raise e
  end.

(** A walk that only appends: started on any accumulator [acc] it ends
    as it does on the empty one, with [acc] in front. *)
Definition appends_only {A} (m : M A) : Prop :=
  forall acc,
    m acc = match m [] with
            | Ok (a, errors) => Ok (a, (acc ++ errors)%list)
            | Raise e => Raise e
            end.

(** The diagnostics of a homogeneous array as the specification words
    them: each element is checked in turn against the one item schema,
    under its own index, and the findings are kept in order. *)
Fixpoint each_element (check : nat -> json -> result (list string))
    (index : nat) (items : list json) : result (list string) :=
  match items with
  | [] => Ok []
  | item :: rest =>
      match check index item with
      | Raise e => Raise e
      | Ok found =>
          match each_element check (S index) rest with
          | Raise e => Raise e
          | Ok later => Ok (found ++ later)%list
          end
      end
  end.

(** [isinstance(v, (dict, list, str))], the test of line 111. *)
Definition is_dict_list_or_str (v : json) : bool :=
  Py.is_dict v || Py.is_list v || Py.is_str v.

(** A string schema node that no rule of the matcher reads as a token:
    it carries no optional prefix, is none of the reserved words and
    starts neither an array token nor a regex token. *)
Definition plain_string (s : string) : bool :=
  negb (Py.startswith s OPTIONAL_FIELD_PREFIX)
  && negb (Py.startswith s EMPTY_LIST_FIELD)
  && negb (Py.startswith s REGEX_FIELD)
  && negb (String.eqb s PRESENT_FIELD)
  && negb (String.eqb s IGNORE_FIELD)
  && negb (String.eqb s NULL_FIELD)
  && negb (String.eqb s STRING_FIELD)
  && negb (String.eqb s NUMBER_FIELD)
  && negb (String.eqb s BOOLEAN_FIELD)
  && negb (String.eqb s OBJECT_FIELD)
  && negb (String.eqb s ARRAY_FIELD)
  && negb (String.eqb s NOTNULL_FIELD).

(** The schema node a literal is written as. *)
Definition json_of_literal (l : literal) : json :=
  match l with
  | LNone => JNull
  | LBool b => JBool b
  | LInt z => JInt z
  | LFloat f => JFloat f
  | LStr s => JStr s
  end.

Definition success : result (bool * string) :=
  Ok (true, "Validation successful.").

(** ** Interpreter stand-ins for closed examples *)

(** [re.match] on a pattern that is an optional [^] followed by ordinary
    characters (none of [. ^ $ * + ? { } [ ] \ | ( )]): the match starts
    at the beginning of the string and need not reach its end.  Other
    patterns are outside this function; it only runs examples whose
    pattern has that form. *)
Definition re_match_literal (pattern s : string) : option bool :=
  let body :=
    if Py.startswith pattern "^" then Py.slice_from 1 pattern else pattern in
  Some (Py.startswith s body).

(** A place holder for the interpreter's rendering of floats, lists and
    dicts; the examples that use it never print such a value except
    where noted. *)
Definition repr_opaque (v : json) : string :=
  "<" ++ Py.type_name v ++ ">".

(** A resource tree with one schema file per country and a file that
    exists under two of them. *)
Definition fs_example : filesystem := {|
  is_file p :=
    String.eqb p "resources/HK/user.json"
    || String.eqb p "resources/HK/common.json"
    || String.eqb p "resources/SG/common.json";
  path_exists p :=
    String.eqb p "resources"
    || String.eqb p "resources/HK"
    || String.eqb p "resources/SG"
    || String.eqb p "resources/HK/user.json"
    || String.eqb p "resources/HK/common.json"
    || String.eqb p "resources/SG/common.json";
  rglob dir pattern :=
    if String.eqb dir "resources" then
      if String.eqb pattern "user.json" then ["resources/HK/user.json"]
      else if String.eqb pattern "common.json"
           then ["resources/HK/common.json"; "resources/SG/common.json"]
      else if String.eqb pattern "*" then
        ["resources/HK"; "resources/HK/user.json"; "resources/HK/common.json";
         "resources/SG"; "resources/SG/common.json"]
      else []
    else [];
  resolve p := "/srv/bdd/" ++ p;
  read_text p :=
    if String.eqb p "resources/HK/user.json"
    then Some "{}"
    else None
|}.

(** ** More readings of a walk *)

(** Findings of several checks made one after the other: the lists are
    kept in order, and the first check that raises ends the run. *)
Fixpoint collect (checks : list (result (list string)))
  : result (list string) :=
  match checks with
  | [] => Ok []
  | check :: rest =>
      match check with
      | Raise e => Raise e
      | Ok found =>
          match collect rest with
          | Raise e => Raise e
          | Ok later => Ok (found ++ later)%list
          end
      end
  end.

(** [enumerate(items, start)] *)
Fixpoint enumerate_from {A} (start : nat) (items : list A)
  : list (nat * A) :=
  match items with
  | [] => []
  | item :: rest => (start, item) :: enumerate_from (S start) rest
  end.

(** The negation of the test of line 111: the list schema is read
    position by position. *)
Definition is_positional (schema_items : list json) : bool :=
  match schema_items with
  | [item_schema] => negb (is_dict_list_or_str item_schema)
  | _ => true
  end.

(** A schema made of strings, objects and arrays only: no number, no
    boolean and no null occurs in it as a node. *)
Fixpoint strings_and_containers (schema : json) : bool :=
  match schema with
  | JStr _ => true
  | JArr items => List.forallb strings_and_containers items
  | JObj fields =>
      List.forallb (fun kv => strings_and_containers (snd kv)) fields
  | _ => false
  end.

(** What every diagnostic of the matcher begins with. *)
Definition is_diagnostic (msg : string) : Prop :=
  Py.startswith msg "Validation Error" = true.

(** The exceptions the embedded [_validate_field] raises. *)
Definition is_matcher_exception (e : pyexn) : Prop :=
  (exists type_name, e = AttributeError type_name "startswith")
  \/ (exists pattern, e = ReError pattern).

(** A walk that adds only diagnostics to the accumulator; where it
    raises, the embedding has one of its two exceptions. *)
Definition well_behaved {A} (m : M A) : Prop :=
  forall acc,
    match m acc with
    | Ok (_, errors) =>
        exists added, errors = (acc ++ added)%list /\ Forall is_diagnostic added
    | Raise e => is_matcher_exception e
    end.

(** A walk that never raises [AttributeError]. *)
Definition never_attribute_error {A} (m : M A) : Prop :=
  forall acc type_name attribute,
    m acc <> Raise (AttributeError type_name attribute).

(** ** schema_validation.py: the schema loader *)

(** [s.split(sep)] for a one-character separator. *)
Fixpoint split_char (sep : ascii) (s : string) : list string :=
  match s with
  | EmptyString => [EmptyString]
  | String c s' =>
      if Ascii.eqb c sep then EmptyString :: split_char sep s'
      else
        match split_char sep s' with
        | head :: tail => String c head :: tail
        | [] => [String c EmptyString]
        end
  end.

(** [key in d], and [d[key]] when it is. *)
Fixpoint dict_lookup (fields : list (string * json)) (key : string)
  : option json :=
  match fields with
  | [] => None
  | (k, v) :: rest => if String.eqb k key then Some v else dict_lookup rest key
  end.

(** [expected_json.get(keys, {})]: only a [dict] has the method. *)
Definition get_or_empty (expected_json : json) (key : string) : result json :=
  match expected_json with
  | JObj fields =>
      match dict_lookup fields key with
      | Some v => Ok v
      | None => Ok (JObj [])
      end
  | _ => Raise (AttributeError (Py.type_name expected_json) "get")
  end.

(** Lines 143-144: [for keys in item_nested[1:]:
    expected_json = expected_json.get(keys, {})]. *)
Fixpoint descend (expected_json : json) (keys : list string) : result json :=
  match keys with
  | [] => Ok expected_json
  | key :: rest =>
      match get_or_empty expected_json key with
      | Ok inner => descend inner rest
      | Raise e => Raise e
      end
  end.

Section SchemaLoader.

(** [json.load] on the text of a file; [None] when it raises. *)
Variable json_load : string -> option json.

(** [os.path.join] on two components. *)
Variable os_path_join : string -> string -> string.

(** The constant [RESOURCES] of helpers/constants.py. *)
Variable RESOURCES : string.

(** [get_schema_response], lines 137-145.  [str.split] never returns an
    empty list, so [item_nested[0]] is defined. *)
Definition get_schema_response (fs : filesystem)
    (rsp_content country : string) : result json :=
  let item_nested := split_char "." rsp_content in
  let filename := List.hd EmptyString item_nested in
  match get_abs_file_path fs (filename ++ ".json")
          (os_path_join RESOURCES country) with
  | Raise e => Raise e
  | Ok file_path =>
      match fst (read_json_file json_load fs file_path) with
      | Raise e => Raise e
      | Ok expected_json => descend expected_json (List.tl item_nested)
      end
  end.

End SchemaLoader.

(** ** str_handle.py: values picked out of a response *)

Module StrHandle.

(** Exceptions of [customize_get] and [get_keys_value]. *)
Inductive exn : Type :=
| NoAttribute (type_name attribute : string)
| ValueErrorInt (text : string)
| ValueErrorTarget (keys : list string)
| NotSubscriptable (type_name : string)
| KeyError (key : Z)
| IndexError (type_name : string).

Inductive outcome (A : Type) : Type :=
| Returns (a : A)
| Raises (e : exn).
Arguments Returns {A} a.
Arguments Raises {A} e.

(** [c in s] for a character [c]. *)
Fixpoint contains (s : string) (c : ascii) : bool :=
  match s with
  | EmptyString => false
  | String d s' => Ascii.eqb d c || contains s' c
  end.

(** [dict_obj.get(key)] and [dict_obj.get(key, None)]: the value, or
    [None] when the key is missing; only a [dict] has the method. *)
Definition method_get (dict_obj : json) (key : string) : outcome json :=
  match dict_obj with
  | JObj fields => Returns (Py.dict_get fields key)
  | _ => Raises (NoAttribute (Py.type_name dict_obj) "get")
  end.

Section Lookup.

(** [list_indexs_complie.split(mode)]: [re.split] with the pattern
    [\[(\d+)\]], whose group puts the digits among the parts. *)
Variable index_split : string -> list string.

(** [int(text)]; [None] when it raises [ValueError]. *)
Variable py_int : string -> option Z.

(** [s[i]] for a [str] [s]; [None] when it raises [IndexError]. *)
Variable str_item : string -> Z -> option string.

(** [obj[i]] for an [int] [i].  The keys of a decoded JSON object are
    strings, so an [int] is never one of them. *)
Definition getitem (obj : json) (i : Z) : outcome json :=
  match obj with
  | JArr items =>
      let n := Z.of_nat (List.length items) in
      if (0 <=? i) && (i <? n) then
        Returns (List.nth (Z.to_nat i) items JNull)
      else if (- n <=? i) && (i <? 0) then
        Returns (List.nth (Z.to_nat (n + i)) items JNull)
      else Raises (IndexError "list")
  | JObj _ => Raises (KeyError i)
  | JStr s =>
      match str_item s i with
      | Some c => Returns (JStr c)
      | None => Raises (IndexError "str")
      end
  | _ => Raises (NotSubscriptable (Py.type_name obj))
  end.

(** Lines 45-46: [for part in parts: obj = obj[int(part)]]; the index
    is converted before the object is subscripted. *)
Fixpoint index_by_parts (obj : json) (parts : list string) : outcome json :=
  match parts with
  | [] => Returns obj
  | part :: rest =>
      match py_int part with
      | None => Raises (ValueErrorInt part)
      | Some i =>
          match getitem obj i with
          | Returns inner => index_by_parts inner rest
          | Raises e => Raises e
          end
      end
  end.

(** [customize_get], lines 40-48. *)
Definition customize_get (mode : string) (dict_obj : json) : outcome json :=
  if contains mode "[" && contains mode "]" then
    let parts := index_split mode in
    let key := List.hd EmptyString (split_char "[" mode) in
    match method_get dict_obj key with
    | Raises e => Raises e
    | Returns obj => index_by_parts obj parts
    end
  else method_get dict_obj mode.

(** Lines 54-57: the loop of [get_keys_value] over the split keys;
    [all_keys] is the list the error message shows. *)
Fixpoint get_keys_loop (all_keys : list string) (value : json)
    (keys : list string) : outcome json :=
  match keys with
  | [] => Returns value
  | key :: rest =>
      match customize_get key value with
      | Raises e => Raises e
      | Returns JNull => Raises (ValueErrorTarget all_keys)
      | Returns found => get_keys_loop all_keys found rest
      end
  end.

(** [get_keys_value], lines 51-58. *)
Definition get_keys_value (keys : string) (dict_obj : json) : outcome json :=
  let keys := split_char "." keys in
  get_keys_loop keys dict_obj keys.

End Lookup.

(** Stand-ins for closed examples.  [index_split_example] is
    [re.split] on the one key the examples use; [py_int_example] is
    [int] on a text of decimal digits and rejects a text that holds any
    other character (the examples use no sign, blank or underscore). *)
Definition index_split_example (mode : string) : list string :=
  if String.eqb mode "items[0]" then ["items"; "0"; ""] else [mode].

Fixpoint digits_value (acc : Z) (text : string) : option Z :=
  match text with
  | EmptyString => Some acc
  | String c rest =>
      let n := nat_of_ascii c in
      if (48 <=? n)%nat && (n <=? 57)%nat
      then digits_value (10 * acc + Z.of_nat (n - 48)) rest
      else None
  end.

Definition py_int_example (text : string) : option Z :=
  match text with
  | EmptyString => None
  | _ => digits_value 0 text
  end.

Definition str_item_example (s : string) (i : Z) : option string :=
  match String.get (Z.to_nat i) s with
  | Some c => if 0 <=? i then Some (String c EmptyString) else None
  | None => None
  end.

End StrHandle.

(** A schema document for the examples: one fragment per response. *)
Definition user_document : json :=
  JObj [("login", JObj [("token", JStr "#string");
                        ("expires", JStr "#number")]);
        ("errors", JArr [JStr "#string"])].

(** The text of the schema file is not spelled out: [user_text] stands
    for it, and [json_load_example] for [json.load] on it. *)
Definition user_text : string := "<text of user.json>".

Definition json_load_example (text : string) : option json :=
  if String.eqb text user_text then Some user_document else None.

Definition os_path_join_example (a b : string) : string := a ++ "/" ++ b.

(** A resource tree whose one schema file can be found, resolved and
    read. *)
Definition fs_loader_example : filesystem := {|
  is_file p :=
    String.eqb p "resources/HK/user.json"
    || String.eqb p "/srv/bdd/resources/HK/user.json";
  path_exists p :=
    String.eqb p "resources/HK/user.json"
    || String.eqb p "/srv/bdd/resources/HK/user.json";
  rglob dir pattern :=
    if String.eqb dir "resources/HK" && String.eqb pattern "user.json"
    then ["resources/HK/user.json"]
    else [];
  resolve p :=
    if Py.startswith p "/" then p else "/srv/bdd/" ++ p;
  read_text p :=
    if String.eqb p "resources/HK/user.json"
       || String.eqb p "/srv/bdd/resources/HK/user.json"
    then Some user_text
    else None
|}.

(** * Properties *)

(** ** The accumulator is only appended to *)

Lemma appends_only_ret {A} (a : A) : appends_only (ret a).
Proof. intros acc. unfold ret. now rewrite app_nil_r. Qed.

Lemma appends_only_errors_append (msg : string) :
  appends_only (errors_append msg).
Proof. intros acc. reflexivity. Qed.

Lemma appends_only_raise {A} (e : pyexn) : appends_only (@raise A e).
Proof. intros acc. reflexivity. Qed.

Lemma appends_only_bind {A B} (m : M A) (k : A -> M B) :
  appends_only m -> (forall a, appends_only (k a)) -> appends_only (bind m k).
Proof.
  intros Hm Hk acc. unfold bind. rewrite Hm.
  destruct (m []) as [[a errors] | e]; [ | reflexivity ].
  rewrite (Hk a (acc ++ errors)%list), (Hk a errors).
  destruct (k a []) as [[b later] | e]; [ | reflexivity ].
  now rewrite app_assoc.
Qed.

Create HintDb frame.
#[export] Hint Resolve appends_only_ret appends_only_errors_append
  appends_only_raise : frame.

Ltac frame_cases :=
  repeat match goal with
    | |- appends_only (if ?c then _ else _) => destruct c
    | |- appends_only (match ?x with _ => _ end) => destruct x
    | |- appends_only (bind _ _) => apply appends_only_bind; [ | intros ? ]
    end;
  auto with frame.

Lemma appends_only_startswith_method (v : json) (p : string) :
  appends_only (startswith_method v p).
Proof. unfold startswith_method. frame_cases. Qed.

Lemma appends_only_missing_value_guard (o : bool) (r s : json) :
  appends_only (missing_value_guard o r s).
Proof.
  unfold missing_value_guard.
  destruct (_ && _); auto using appends_only_startswith_method with frame.
Qed.

Lemma appends_only_validate_str re rc (r : json) (s path : string) :
  appends_only (validate_str re rc r s path).
Proof. unfold validate_str. frame_cases. Qed.

Lemma appends_only_validate_literal rc (r s : json) (path : string) :
  appends_only (validate_literal rc r s path).
Proof. unfold validate_literal. frame_cases. Qed.

#[export] Hint Resolve appends_only_missing_value_guard
  appends_only_validate_str appends_only_validate_literal : frame.

Lemma appends_only_for_enumerate (body : nat -> json -> M unit) :
  (forall index item, appends_only (body index item)) ->
  forall items index, appends_only (for_enumerate body index items).
Proof.
  intros Hbody items.
  induction items as [ | item rest IH ]; intros index; cbn; frame_cases.
Qed.

Lemma appends_only_for_enumerate_zip (body : nat -> json -> json -> M unit) :
  forall ys,
    Forall (fun y => forall index x, appends_only (body index x y)) ys ->
    forall xs index, appends_only (for_enumerate_zip body index xs ys).
Proof.
  intros ys Hys.
  induction Hys as [ | y ys' Hy _ IH ]; intros [ | x xs' ] index; cbn;
    frame_cases.
Qed.

Lemma appends_only_for_items (body : string -> json -> M unit) :
  forall fields,
    Forall (fun kv => forall key, appends_only (body key (snd kv))) fields ->
    appends_only (for_items body fields).
Proof.
  intros fields Hfields.
  induction Hfields as [ | [key val] rest Hkv _ IH ]; cbn; frame_cases.
Qed.

Lemma appends_only_validate_field re rc (schema : json) :
  forall response path,
    appends_only (_validate_field re rc response schema path).
Proof.
  induction schema as [ | b | z | f | s | items IH | fields IH ]
    using json_nested_ind; intros response path.
  - cbn. frame_cases.
  - cbn. frame_cases.
  - cbn. frame_cases.
  - cbn. frame_cases.
  - cbn -[validate_str missing_value_guard strip_optional is_optional_of].
    frame_cases.
  - cbn -[missing_value_guard]. 
    apply appends_only_bind; [ auto with frame | intros missing ].
    destruct missing; [ auto with frame | ].
    destruct response as [ | | | | | response_items | ];
      destruct items as [ | [ | | | | | | ] [ | ] ]; cbv beta match;
      auto with frame;
      try (destruct (negb _); auto with frame);
      try (apply appends_only_for_enumerate_zip;
           eapply Forall_impl; [ | exact IH ]; cbn; intros; auto);
      try (apply appends_only_for_enumerate; intros;
           inversion IH; subst; auto).
  - cbn -[missing_value_guard].
    apply appends_only_bind; [ auto with frame | intros missing ].
    destruct missing; [ auto with frame | ].
    destruct response; auto with frame.
    apply appends_only_for_items.
    eapply Forall_impl; [ | exact IH ]; cbn; intros; auto.
Qed.

Lemma diagnostics_for_enumerate (body : nat -> json -> M unit) :
  (forall index item, appends_only (body index item)) ->
  forall items index,
    diagnostics (for_enumerate body index items)
    = each_element (fun i item => diagnostics (body i item)) index items.
Proof.
  intros Hbody items.
  induction items as [ | item rest IH ]; intros index; [ reflexivity | ].
  cbn [each_element for_enumerate]. rewrite <- IH.
  unfold diagnostics, bind.
  destruct (body index item []) as [[[] found] | e]; [ | reflexivity ].
  rewrite (appends_only_for_enumerate body Hbody rest (S index) found).
  destruct (for_enumerate body (S index) rest []) as [[[] later] | e];
    reflexivity.
Qed.

(** ** The store across calls *)

Lemma length_update (a : Store.addr) (f : list string -> list string)
    (h : Store.heap) :
  List.length (Store.update a f h) = List.length h.
Proof.
  revert a. induction h as [ | object rest IH ]; intros [ | a' ]; cbn;
    try reflexivity.
  now rewrite IH.
Qed.

Lemma nth_update_same (a : Store.addr) (f : list string -> list string)
    (h : Store.heap) :
  (a < List.length h)%nat ->
  List.nth a (Store.update a f h) [] = f (List.nth a h []).
Proof.
  revert a. induction h as [ | object rest IH ]; intros [ | a' ] Hlt;
    cbn in *; try lia; [ reflexivity | ].
  apply IH. lia.
Qed.

Lemma nth_update_other (a b : Store.addr) (f : list string -> list string)
    (h : Store.heap) :
  b <> a -> List.nth b (Store.update a f h) [] = List.nth b h [].
Proof.
  revert a b. induction h as [ | object rest IH ]; intros [ | a' ] [ | b' ] Hne;
    cbn; try reflexivity; try congruence.
  apply IH. congruence.
Qed.

Lemma update_update (a : Store.addr) (f g : list string -> list string)
    (h : Store.heap) :
  Store.update a f (Store.update a g h)
  = Store.update a (fun object => f (g object)) h.
Proof.
  revert a. induction h as [ | object rest IH ]; intros [ | a' ]; cbn;
    try reflexivity.
  now rewrite IH.
Qed.

Lemma update_to_contents (a : Store.addr) (f : list string -> list string)
    (h : Store.heap) :
  Store.update a f h = Store.update a (fun _ => f (List.nth a h [])) h.
Proof.
  revert a. induction h as [ | object rest IH ]; intros [ | a' ]; cbn;
    try reflexivity.
  now rewrite IH.
Qed.

Lemma update_with_own_contents (a : Store.addr) (h : Store.heap) :
  Store.update a (fun _ => List.nth a h []) h = h.
Proof.
  revert a. induction h as [ | object rest IH ]; intros [ | a' ]; cbn;
    try reflexivity.
  now rewrite IH.
Qed.

Lemma tracks_ret {A} (errors : Store.addr) (a : A) :
  tracks errors (ret a) (Store.ret a).
Proof.
  intros h _. cbn. unfold Store.ret. now rewrite update_with_own_contents.
Qed.

Lemma tracks_append (errors : Store.addr) (msg : string) :
  tracks errors (errors_append msg) (Store.list_append errors msg).
Proof.
  intros h _. cbn. unfold Store.list_append.
  now rewrite update_to_contents.
Qed.

Lemma tracks_raise {A} (errors : Store.addr) (e : pyexn) :
  tracks errors (@raise A e) (Store.raise e).
Proof. intros h _. cbn. exists h. repeat split. Qed.

Lemma tracks_bind {A B} (errors : Store.addr)
    (m : M A) (k : A -> M B) (hm : Store.H A) (hk : A -> Store.H B) :
  tracks errors m hm ->
  (forall a, tracks errors (k a) (hk a)) ->
  tracks errors (bind m k) (Store.bind hm hk).
Proof.
  intros Hm Hk h Hlt. unfold bind, Store.bind. specialize (Hm h Hlt).
  destruct (m (List.nth errors h [])) as [[a contents] | e].
  - rewrite Hm.
    specialize (Hk a (Store.update errors (fun _ => contents) h)).
    rewrite length_update, nth_update_same in Hk by assumption.
    specialize (Hk Hlt).
    destruct (k a contents) as [[b contents'] | e].
    + rewrite Hk. now rewrite update_update.
    + destruct Hk as (h' & Hrun & Hlen & Hother).
      exists h'. split; [ exact Hrun | ]. split.
      * rewrite Hlen. now rewrite ?length_update.
      * intros b Hb. rewrite Hother by assumption.
        now apply nth_update_other.
  - destruct Hm as (h' & Hrun & Hrest). exists h'.
    rewrite Hrun. split; [ reflexivity | exact Hrest ].
Qed.

Create HintDb store.
#[export] Hint Resolve tracks_ret tracks_append tracks_raise : store.

Ltac store_cases :=
  repeat match goal with
    | |- tracks _ (if ?c then _ else _) (if ?c then _ else _) => destruct c
    | |- tracks _ (match ?x with _ => _ end) (match ?x with _ => _ end) =>
        destruct x
    | |- tracks _ (bind _ _) (Store.bind _ _) =>
        apply tracks_bind; [ | intros ? ]
    end;
  auto with store.

Lemma tracks_startswith_method (errors : Store.addr) (v : json) (p : string) :
  tracks errors (startswith_method v p) (Store.startswith_method v p).
Proof. unfold startswith_method, Store.startswith_method. store_cases. Qed.

Lemma tracks_missing_value_guard (errors : Store.addr) (o : bool)
    (r s : json) :
  tracks errors (missing_value_guard o r s) (Store.missing_value_guard o r s).
Proof.
  unfold missing_value_guard, Store.missing_value_guard.
  destruct (_ && _); auto using tracks_startswith_method with store.
Qed.

Lemma tracks_validate_str re rc (errors : Store.addr) (r : json)
    (s path : string) :
  tracks errors (validate_str re rc r s path)
    (Store.validate_str re rc errors r s path).
Proof. unfold validate_str, Store.validate_str. store_cases. Qed.

Lemma tracks_validate_literal rc (errors : Store.addr) (r s : json)
    (path : string) :
  tracks errors (validate_literal rc r s path)
    (Store.validate_literal rc errors r s path).
Proof. unfold validate_literal, Store.validate_literal. store_cases. Qed.

#[export] Hint Resolve tracks_missing_value_guard tracks_validate_str
  tracks_validate_literal : store.

Lemma tracks_for_enumerate (errors : Store.addr)
    (body : nat -> json -> M unit) (hbody : nat -> json -> Store.H unit) :
  (forall index item, tracks errors (body index item) (hbody index item)) ->
  forall items index,
    tracks errors (for_enumerate body index items)
      (Store.for_enumerate hbody index items).
Proof.
  intros Hbody items.
  induction items as [ | item rest IH ]; intros index; cbn; store_cases.
Qed.

Lemma tracks_for_enumerate_zip (errors : Store.addr)
    (body : nat -> json -> json -> M unit)
    (hbody : nat -> json -> json -> Store.H unit) :
  forall ys,
    Forall (fun y => forall index x,
              tracks errors (body index x y) (hbody index x y)) ys ->
    forall xs index,
      tracks errors (for_enumerate_zip body index xs ys)
        (Store.for_enumerate_zip hbody index xs ys).
Proof.
  intros ys Hys.
  induction Hys as [ | y ys' Hy _ IH ]; intros [ | x xs' ] index; cbn;
    store_cases.
Qed.

Lemma tracks_for_items (errors : Store.addr)
    (body : string -> json -> M unit) (hbody : string -> json -> Store.H unit) :
  forall fields,
    Forall (fun kv => forall key,
              tracks errors (body key (snd kv)) (hbody key (snd kv))) fields ->
    tracks errors (for_items body fields) (Store.for_items hbody fields).
Proof.
  intros fields Hfields.
  induction Hfields as [ | [key val] rest Hkv _ IH ]; cbn; store_cases.
Qed.

Lemma tracks_validate_field re rc (errors : Store.addr) (schema : json) :
  forall response path,
    tracks errors (_validate_field re rc response schema path)
      (Store._validate_field re rc errors response schema path).
Proof.
  induction schema as [ | b | z | f | s | items IH | fields IH ]
    using json_nested_ind; intros response path.
  - cbn. store_cases.
  - cbn. store_cases.
  - cbn. store_cases.
  - cbn. store_cases.
  - cbn -[validate_str Store.validate_str missing_value_guard
          Store.missing_value_guard strip_optional is_optional_of].
    store_cases.
  - cbn -[missing_value_guard Store.missing_value_guard].
    apply tracks_bind; [ auto with store | intros missing ].
    destruct missing; [ auto with store | ].
    destruct response as [ | | | | | response_items | ];
      destruct items as [ | [ | | | | | | ] [ | ] ]; cbv beta match;
      auto with store;
      try (destruct (negb _); auto with store);
      try (apply tracks_for_enumerate_zip;
           eapply Forall_impl; [ | exact IH ]; cbn; intros; auto);
      try (apply tracks_for_enumerate; intros;
           inversion IH; subst; auto).
  - cbn -[missing_value_guard Store.missing_value_guard].
    apply tracks_bind; [ auto with store | intros missing ].
    destruct missing; [ auto with store | ].
    destruct response; auto with store.
    apply tracks_for_items.
    eapply Forall_impl; [ | exact IH ]; cbn; intros; auto.
Qed.

Lemma store_call re rc (response schema : json) (h : Store.heap) :
  fst (Store.validate_json_schema re rc response schema h)
  = validate_json_schema re rc response schema
  /\ forall b, (b < List.length h)%nat ->
               List.nth b (snd (Store.validate_json_schema re rc
                                  response schema h)) []
               = List.nth b h [].
Proof.
  pose proof (tracks_validate_field re rc (List.length h) schema response ""
                (h ++ [[]])%list) as Hwalk.
  rewrite length_app, app_nth2, Nat.sub_diag in Hwalk by lia.
  cbn [List.length List.nth] in Hwalk.
  specialize (Hwalk ltac:(lia)).
  unfold Store.validate_json_schema, validate_json_schema,
    Store.bind, Store.new_list, Store.list_read.
  destruct (_validate_field re rc response schema "" [])
    as [[[] contents] | e].
  - rewrite Hwalk.
    rewrite nth_update_same by (rewrite length_app; cbn; lia).
    destruct contents as [ | first rest ]; cbn [fst snd Store.ret];
      (split; [ reflexivity | ]);
      intros b Hb; rewrite nth_update_other by lia; now apply app_nth1.
  - destruct Hwalk as (h' & Hrun & Hlen & Hother). rewrite Hrun.
    split; [ reflexivity | ].
    intros b Hb. cbn [snd]. rewrite Hother by lia. now apply app_nth1.
Qed.

(** C8: [validate_json_schema] keeps nothing between calls.  Run on a
    store that holds whatever list objects earlier calls created and
    left, with whatever contents, a call returns the same verdict and
    the same message, or raises the same exception, as the walk started
    on a fresh accumulator; it leaves every object that was there before
    as it was; and so a call made after any run of earlier calls returns
    what it returns on the empty store. *)
Theorem validate_json_schema_no_hidden_state
    (re : string -> string -> option bool) (rc : json -> string)
    (response schema : json) :
  (forall h,
      fst (Store.validate_json_schema re rc response schema h)
      = validate_json_schema re rc response schema)
  /\ (forall h b,
        (b < List.length h)%nat ->
        List.nth b (snd (Store.validate_json_schema re rc response schema h))
          []
        = List.nth b h [])
  /\ (forall earlier h,
        fst (Store.validate_json_schema re rc response schema
               (snd (Store.session re rc earlier h)))
        = fst (Store.validate_json_schema re rc response schema [])).
Proof.
  split; [ | split ].
  - intros h. apply store_call.
  - intros h b Hb. now apply store_call.
  - intros earlier h.
    rewrite (proj1 (store_call re rc response schema _)).
    now rewrite (proj1 (store_call re rc response schema [])).
Qed.

(** ** Array tokens that name a schema fragment *)

(** C1: the array-reference token is never resolved.  The optional form
    [##[]userSchema] loses its [##] and is then compared as the literal
    string [[]userSchema], so the observed empty array fails; the form
    [#[]userSchema] stops at the emptiness test of line 49, so a
    conforming one-element array fails although the fragment is present
    in the schema document; whatever the name, the token only tests
    that the observed value is the empty array. *)
Theorem array_reference_token_is_not_resolved
    (re : string -> string -> option bool) (rc : json -> string) :
  validate_json_schema re rc (JArr []) (JStr "##[]userSchema")
  = Ok (false,
        "Validation Error at '': expected value '[]userSchema', got '"
          ++ rc (JArr []) ++ "'.")
  /\ validate_json_schema re rc
       (JObj [("userSchema", JObj [("id", JInt 7)]);
              ("users", JArr [JObj [("id", JInt 1)]])])
       (JObj [("userSchema", JObj [("id", JStr "#number")]);
              ("users", JStr "#[]userSchema")])
     = Ok (false,
           "Validation Error at '.users' expected an array, got list.")
  /\ (forall name v,
        validate_json_schema re rc v (JStr (EMPTY_LIST_FIELD ++ name))
        = match v with
          | JArr [] => success
          | _ =>
              Ok (false,
                  "Validation Error at '' expected an array, got "
                    ++ Py.type_name v ++ ".")
          end).
Proof.
  split; [ reflexivity | split; [ reflexivity | ] ].
  intros name v.
  destruct v as [ | | | | | [ | item rest ] | ]; reflexivity.
Qed.

(** C3: a fragment name that the schema document does not define goes
    unnoticed: with the observed array empty the token passes. *)
Theorem missing_fragment_passes_silently
    (re : string -> string -> option bool) (rc : json -> string)
    (name : string) :
  validate_json_schema re rc
    (JObj [("items", JArr [])])
    (JObj [("items", JStr (EMPTY_LIST_FIELD ++ name))])
  = success.
Proof. reflexivity. Qed.

(** ** Missing values against number and boolean literals *)

(** C2: a key that the observed object lacks, checked against a number
    or a boolean literal, makes the call raise [AttributeError] instead
    of returning a diagnostic: the guard of line 43 calls [startswith]
    on the literal. *)
Theorem missing_value_against_literal_raises
    (re : string -> string -> option bool) (rc : json -> string) :
  validate_json_schema re rc (JObj []) (JObj [("a", JInt 1)])
  = Raise (AttributeError "int" "startswith")
  /\ (forall z, validate_json_schema re rc JNull (JInt z)
                = Raise (AttributeError "int" "startswith"))
  /\ (forall f, validate_json_schema re rc JNull (JFloat f)
                = Raise (AttributeError "float" "startswith"))
  /\ (forall b, validate_json_schema re rc JNull (JBool b)
                = Raise (AttributeError "bool" "startswith")).
Proof. repeat split; reflexivity. Qed.

(** C5: for the literal [5] and the observed value [None] the call does
    not return at all, so its verdict is not the one of [None == 5]. *)
Theorem literal_number_against_none_raises
    (re : string -> string -> option bool) (rc : json -> string) :
  Py.eq JNull (LInt 5) = false
  /\ validate_json_schema re rc JNull (json_of_literal (LInt 5))
     = Raise (AttributeError "int" "startswith").
Proof. split; reflexivity. Qed.

Lemma validate_field_number_literal
    (re : string -> string -> option bool) (rc : json -> string)
    (v schema : json) (path : string) :
  v <> JNull ->
  match schema with JBool _ | JInt _ | JFloat _ => True | _ => False end ->
  _validate_field re rc v schema path = validate_literal rc v schema path.
Proof.
  intros Hv Hs.
  destruct schema; try contradiction; destruct v; try congruence; reflexivity.
Qed.

(** Away from that defect the verdict on a literal is Python equality:
    for a plain string literal and any observed value, and for a number
    or boolean literal and any observed value other than [None]. *)
Lemma literal_verdict_is_equality
    (re : string -> string -> option bool) (rc : json -> string)
    (v : json) (l : literal) :
  match l with
  | LStr s => plain_string s = true
  | LNone => False
  | _ => v <> JNull
  end ->
  (validate_json_schema re rc v (json_of_literal l) = success
   <-> Py.eq v l = true).
Proof.
  intros Hl. unfold validate_json_schema.
  assert (Hrun : _validate_field re rc v (json_of_literal l) "" []
                 = if negb (Py.eq v l)
                   then Ok (tt, ["Validation Error at '': expected value '"
                                   ++ py_str rc (json_of_literal l)
                                   ++ "', got '" ++ py_str rc v ++ "'."])
                   else Ok (tt, [])).
  { destruct l as [ | b | z | f | s ]; [ contradiction | | | | ].
    - rewrite validate_field_number_literal by (cbn; auto).
      unfold validate_literal. cbn [json_of_literal literal_of].
      destruct (negb _); reflexivity.
    - rewrite validate_field_number_literal by (cbn; auto).
      unfold validate_literal. cbn [json_of_literal literal_of].
      destruct (negb _); reflexivity.
    - rewrite validate_field_number_literal by (cbn; auto).
      unfold validate_literal. cbn [json_of_literal literal_of].
      destruct (negb _); reflexivity.
    - unfold plain_string in Hl.
      repeat (apply andb_prop in Hl; destruct Hl as [Hl ?]).
      repeat match goal with
             | H : negb _ = true |- _ => apply negb_true_iff in H
             end.
      cbn [json_of_literal _validate_field is_optional_of strip_optional].
      rewrite Hl. cbn [andb].
      unfold Py.eq_str at 1 2. cbn [Py.eq].
      unfold missing_value_guard, Py.eq_str. cbn [Py.eq Py.is_str negb andb].
      repeat match goal with
             | H : _ = false |- _ => rewrite H
             end.
      rewrite !andb_false_r. cbn [bind ret].
      unfold validate_str.
      repeat match goal with
             | H : _ = false |- _ => rewrite H
             end.
      unfold Py.eq.
      destruct v as [ | | | | s0 | | ]; try reflexivity.
      destruct (String.eqb s0 s); reflexivity. }
  rewrite Hrun.
  destruct (Py.eq v l); cbn; split; intros; try reflexivity; discriminate.
Qed.

(** ** Booleans and numbers *)

(** The claim C4 fails on [True]: it is accepted as a number, and it
    satisfies the numeric literal [1]. *)
Lemma boolean_passes_as_number :
  validate_json_schema re_match_literal repr_opaque
    (JBool true) (JStr "#number") = success
  /\ validate_json_schema re_match_literal repr_opaque
       (JBool true) (JInt 1) = success.
Proof. split; reflexivity. Qed.

(** C4, as the code has it: outside the token [#boolean] a boolean is
    the number it is as an [int].  Every boolean passes [#number];
    against a number literal, an integer or a float, a boolean passes
    exactly when [True] as 1 or [False] as 0 equals the literal ([True]
    passes 1 and 1.0 and fails 1.5), and a number passes a boolean
    literal on the same terms; between numbers
    the literal test is exact equality: the same integer, IEEE equality
    of two floats, and the exact comparison of an integer with a float.
    Only [#boolean] tells the kinds apart: it accepts the booleans and
    no integer or float. *)
Theorem boolean_counts_as_number
    (re : string -> string -> option bool) (rc : json -> string) :
  (forall b, validate_json_schema re rc (JBool b) (JStr NUMBER_FIELD)
             = success)
  /\ (forall b z, validate_json_schema re rc (JBool b) (JInt z) = success
                  <-> Py.int_of_bool b = z)
  /\ validate_json_schema re rc (JBool true) (JInt 1) = success
  /\ (forall a z, validate_json_schema re rc (JInt a) (JInt z) = success
                  <-> a = z)
  /\ (forall f g, validate_json_schema re rc (JFloat f) (JFloat g) = success
                  <-> SFeqb f g = true)
  /\ (forall a g, validate_json_schema re rc (JInt a) (JFloat g) = success
                  <-> Py.int_float_eqb a g = true)
  /\ (forall f z, validate_json_schema re rc (JFloat f) (JInt z) = success
                  <-> Py.int_float_eqb z f = true)
  /\ (forall b g, validate_json_schema re rc (JBool b) (JFloat g) = success
                  <-> Py.int_float_eqb (Py.int_of_bool b) g = true)
  /\ validate_json_schema re rc (JBool true)
       (JFloat (S754_finite false 4503599627370496 (-52))) = success
  /\ validate_json_schema re rc (JBool true)
       (JFloat (S754_finite false 6755399441055744 (-52))) <> success
  /\ (forall a b, validate_json_schema re rc (JInt a) (JBool b) = success
                  <-> a = Py.int_of_bool b)
  /\ (forall f b, validate_json_schema re rc (JFloat f) (JBool b) = success
                  <-> Py.int_float_eqb (Py.int_of_bool b) f = true)
  /\ (forall a b, validate_json_schema re rc (JBool a) (JBool b) = success
                  <-> a = b)
  /\ (forall b, validate_json_schema re rc (JBool b) (JStr BOOLEAN_FIELD)
                = success)
  /\ (forall z, validate_json_schema re rc (JInt z) (JStr BOOLEAN_FIELD)
                = Ok (false,
                      "Validation Error at '': expected boolean, got int."))
  /\ (forall f, validate_json_schema re rc (JFloat f) (JStr BOOLEAN_FIELD)
                = Ok (false,
                      "Validation Error at '': expected boolean, got float.")).
Proof.
  split; [ intros []; reflexivity | ].
  split.
  { intros b z.
    rewrite (literal_verdict_is_equality re rc (JBool b) (LInt z))
      by discriminate.
    cbn. apply Z.eqb_eq. }
  split; [ reflexivity | ].
  split.
  { intros a z.
    rewrite (literal_verdict_is_equality re rc (JInt a) (LInt z))
      by discriminate.
    cbn. apply Z.eqb_eq. }
  split.
  { intros f g.
    rewrite (literal_verdict_is_equality re rc (JFloat f) (LFloat g))
      by discriminate.
    reflexivity. }
  split.
  { intros a g.
    rewrite (literal_verdict_is_equality re rc (JInt a) (LFloat g))
      by discriminate.
    reflexivity. }
  split.
  { intros f z.
    rewrite (literal_verdict_is_equality re rc (JFloat f) (LInt z))
      by discriminate.
    reflexivity. }
  split.
  { intros b g.
    rewrite (literal_verdict_is_equality re rc (JBool b) (LFloat g))
      by discriminate.
    reflexivity. }
  split; [ reflexivity | ].
  split; [ discriminate | ].
  split.
  { intros a b.
    rewrite (literal_verdict_is_equality re rc (JInt a) (LBool b))
      by discriminate.
    cbn. apply Z.eqb_eq. }
  split.
  { intros f b.
    rewrite (literal_verdict_is_equality re rc (JFloat f) (LBool b))
      by discriminate.
    reflexivity. }
  split.
  { intros a b.
    rewrite (literal_verdict_is_equality re rc (JBool a) (LBool b))
      by discriminate.
    cbn. apply Bool.eqb_true_iff. }
  split; [ intros []; reflexivity | ].
  split; intros; reflexivity.
Qed.

(** ** The homogeneous-array shorthand *)

(** The claim C6 fails when the one item schema is a number: [[5]] is
    then read positionally, so the observed [[5, 5]], whose elements
    both match [5], is rejected for its length. *)
Lemma single_number_schema_is_positional :
  validate_json_schema re_match_literal repr_opaque
    (JArr [JInt 5; JInt 5]) (JArr [JInt 5])
  = Ok (false, "Validation Error at '': expected array of length 1, got 2.")
  /\ Forall (fun item =>
               validate_json_schema re_match_literal repr_opaque
                 item (JInt 5) = success)
            [JInt 5; JInt 5].
Proof. split; [ reflexivity | repeat constructor ]. Qed.

(** C6, as the code has it: when the one item schema is an object, an
    array or a string, an observed value that is not an array yields the
    single diagnostic "expected array", and an observed array yields, in
    order, the diagnostics of each element checked against the item
    schema under the path extended by its index.  For [["#number"]] and
    [[1, 2, "x"]] that is one diagnostic, at path [[2]]. *)
Theorem homogeneous_array_shorthand
    (re : string -> string -> option bool) (rc : json -> string)
    (item_schema : json) :
  is_dict_list_or_str item_schema = true ->
  (forall response path,
      Py.is_list response = false ->
      diagnostics (_validate_field re rc response (JArr [item_schema]) path)
      = Ok ["Validation Error at '" ++ path ++ "': expected array, got "
              ++ Py.type_name response ++ "."])
  /\ (forall items path,
        diagnostics
          (_validate_field re rc (JArr items) (JArr [item_schema]) path)
        = each_element
            (fun index item =>
               diagnostics
                 (_validate_field re rc item item_schema
                    (path ++ "[" ++ Py.str_of_nat index ++ "]")))
            O items)
  /\ validate_json_schema re rc
       (JArr [JInt 1; JInt 2; JStr "x"]) (JArr [JStr "#number"])
     = Ok (false, "Validation Error at '[2]': expected number, got str.").
Proof.
  intros Hitem. split; [ | split; [ | reflexivity ] ].
  - intros response path Hresp.
    destruct item_schema; try discriminate;
      destruct response; try discriminate; reflexivity.
  - intros items path.
    rewrite <- diagnostics_for_enumerate
      by (intros; apply appends_only_validate_field).
    destruct item_schema; try discriminate; reflexivity.
Qed.

Lemma homogeneous_array_shorthand_witness :
  diagnostics
    (_validate_field re_match_literal repr_opaque
       (JArr [JInt 1; JInt 2; JStr "x"]) (JArr [JStr "#number"]) "rows")
  = each_element
      (fun index item =>
         diagnostics
           (_validate_field re_match_literal repr_opaque item (JStr "#number")
              ("rows" ++ "[" ++ Py.str_of_nat index ++ "]")))
      O [JInt 1; JInt 2; JStr "x"].
Proof.
  apply (homogeneous_array_shorthand re_match_literal repr_opaque
           (JStr "#number")).
  reflexivity.
Defined.

(** ** The regex token *)

(** C7: a schema node [#regex <pattern>] passes exactly for an observed
    string on which [re.match] finds a match of the pattern, which is a
    match anchored at the start of the string.  Given what [re.match]
    answers for [^abc], the observed "abcdef" passes and "xabc" fails. *)
Theorem regex_token_is_re_match
    (re : string -> string -> option bool) (rc : json -> string)
    (pattern : string) (v : json) :
  (validate_json_schema re rc v (JStr (REGEX_FIELD ++ pattern)) = success
   <-> exists r, v = JStr r /\ re pattern r = Some true)
  /\ (re "^abc" "abcdef" = Some true ->
      validate_json_schema re rc (JStr "abcdef") (JStr "#regex ^abc")
      = success)
  /\ (re "^abc" "xabc" = Some false ->
      validate_json_schema re rc (JStr "xabc") (JStr "#regex ^abc")
      = Ok (false,
            "Validation Error at '': value 'xabc' does not match regex '^abc'.")).
Proof.
  split; [ | split ].
  - destruct v as [ | b | z | f | r | items | fields ];
      try (split; [ discriminate | intros (r' & Hr & _); discriminate ]).
    unfold validate_json_schema. cbn.
    destruct (re pattern r) as [ [ | ] | ] eqn:Hre; cbn.
    + split; [ intros _; exists r; auto | reflexivity ].
    + split; [ discriminate | ].
      intros (r' & Hr & Hm). injection Hr as <-. congruence.
    + split; [ discriminate | ].
      intros (r' & Hr & Hm). injection Hr as <-. congruence.
  - intros Hre. unfold validate_json_schema. cbn. now rewrite Hre.
  - intros Hre. unfold validate_json_schema. cbn. now rewrite Hre.
Qed.

Lemma regex_token_is_re_match_witness :
  validate_json_schema re_match_literal repr_opaque
    (JStr "abcdef") (JStr "#regex ^abc") = success
  /\ validate_json_schema re_match_literal repr_opaque
       (JStr "xabc") (JStr "#regex ^abc")
     = Ok (false,
           "Validation Error at '': value 'xabc' does not match regex '^abc'.").
Proof.
  destruct (regex_token_is_re_match re_match_literal repr_opaque
              "^abc" JNull) as (_ & Hpass & Hfail).
  split; [ apply Hpass | apply Hfail ]; reflexivity.
Defined.

(** ** The fixture loader *)

(** C9: when the pattern is not itself the path of a file,
    [get_abs_file_path] searches the directory; it raises when the
    search finds no file, raises when it finds more than one, and
    returns the resolved path of the file when it finds exactly one. *)
Theorem get_abs_file_path_unique_or_raises
    (fs : filesystem) (pattern dir : string) :
  is_file fs pattern = false ->
  let found := List.filter (is_file fs) (rglob fs dir pattern) in
  (found = [] ->
   get_abs_file_path fs pattern dir = Raise (NoFileFound pattern dir))
  /\ ((1 < List.length found)%nat ->
      get_abs_file_path fs pattern dir
      = Raise (MultipleFilesFound pattern dir found))
  /\ (forall f, found = [f] ->
                get_abs_file_path fs pattern dir = Ok (resolve fs f)).
Proof.
  intros Hpat found. unfold get_abs_file_path. rewrite Hpat.
  fold found. repeat split.
  - intros ->. reflexivity.
  - intros Hlen. apply Nat.ltb_lt in Hlen. now rewrite Hlen.
  - intros f ->. reflexivity.
Qed.

Lemma get_abs_file_path_unique_or_raises_witness :
  get_abs_file_path fs_example "missing.json" "resources"
  = Raise (NoFileFound "missing.json" "resources")
  /\ get_abs_file_path fs_example "common.json" "resources"
     = Raise (MultipleFilesFound "common.json" "resources"
                ["resources/HK/common.json"; "resources/SG/common.json"])
  /\ get_abs_file_path fs_example "user.json" "resources"
     = Ok "/srv/bdd/resources/HK/user.json".
Proof.
  split; [ | split ].
  - apply (get_abs_file_path_unique_or_raises
             fs_example "missing.json" "resources"); reflexivity.
  - apply (get_abs_file_path_unique_or_raises
             fs_example "common.json" "resources"); [ reflexivity | ].
    cbn. lia.
  - apply (get_abs_file_path_unique_or_raises
             fs_example "user.json" "resources"
             eq_refl); reflexivity.
Defined.

(** C10: for a path that does not exist [read_json_file] returns the
    empty dict and does nothing but the existence test; whenever it
    opens or parses the file, the path exists. *)
Theorem read_json_file_missing_path
    (json_load : string -> option json) (fs : filesystem)
    (file_path : string) :
  (path_exists fs file_path = false ->
   read_json_file json_load fs file_path
   = (Ok (JObj []), [EvExists file_path]))
  /\ (forall p,
        In (EvOpen p) (snd (read_json_file json_load fs file_path))
        \/ In (EvJsonLoad p) (snd (read_json_file json_load fs file_path)) ->
        path_exists fs file_path = true).
Proof.
  unfold read_json_file. split.
  - intros ->. reflexivity.
  - intros p. destruct (path_exists fs file_path); [ reflexivity | ].
    cbn. intros [[H | []] | [H | []]]; discriminate.
Qed.

Lemma read_json_file_missing_path_witness :
  read_json_file (fun _ => Some (JObj [])) fs_example "resources/HK/none.json"
  = (Ok (JObj []), [EvExists "resources/HK/none.json"])
  /\ path_exists fs_example "resources/HK/user.json" = true.
Proof.
  split.
  - apply (read_json_file_missing_path
             (fun _ => Some (JObj [])) fs_example "resources/HK/none.json").
    reflexivity.
  - apply (proj2 (read_json_file_missing_path
                    (fun _ => Some (JObj [])) fs_example
                    "resources/HK/user.json")
             "resources/HK/user.json").
    left. cbn. right. left. reflexivity.
Defined.

(** * Further properties of the matcher *)

(** ** The optional prefix *)

(** X1: the optional prefix.  A schema string that starts with [##]
    accepts a missing value, whatever follows the prefix; on a value
    that is present the prefix changes nothing: the walk under
    [## + rest] is the walk under [rest], as long as [rest] does not
    itself start with [##] (one prefix only is stripped). *)
Theorem optional_prefix
    (re : string -> string -> option bool) (rc : json -> string)
    (rest : string) :
  validate_json_schema re rc JNull (JStr (OPTIONAL_FIELD_PREFIX ++ rest))
  = success
  /\ (forall v path,
        v <> JNull ->
        Py.startswith rest OPTIONAL_FIELD_PREFIX = false ->
        _validate_field re rc v (JStr (OPTIONAL_FIELD_PREFIX ++ rest)) path
        = _validate_field re rc v (JStr rest) path).
Proof.
  split; [ reflexivity | ].
  intros v path Hv Hrest.
  cbn -[validate_str Py.eq_str Py.startswith Py.slice_from].
  change (Py.startswith (OPTIONAL_FIELD_PREFIX ++ rest) OPTIONAL_FIELD_PREFIX)
    with true.
  rewrite Hrest.
  destruct v; try congruence; reflexivity.
Qed.

Lemma optional_prefix_witness :
  _validate_field re_match_literal repr_opaque (JInt 3) (JStr "###string") "a"
  = _validate_field re_match_literal repr_opaque (JInt 3) (JStr "#string") "a".
Proof.
  apply (proj2 (optional_prefix re_match_literal repr_opaque "#string")
           (JInt 3) "a").
  - discriminate.
  - reflexivity.
Defined.

(** ** The tokens *)

(** X2: the presence tokens.  [#ignore] accepts every value; [#present]
    and [#notnull] accept exactly the values other than [None]; [#null]
    accepts exactly [None]. *)
Theorem presence_tokens
    (re : string -> string -> option bool) (rc : json -> string) (v : json) :
  validate_json_schema re rc v (JStr IGNORE_FIELD) = success
  /\ (validate_json_schema re rc v (JStr PRESENT_FIELD) = success
      <-> v <> JNull)
  /\ (validate_json_schema re rc v (JStr NOTNULL_FIELD) = success
      <-> v <> JNull)
  /\ (validate_json_schema re rc v (JStr NULL_FIELD) = success
      <-> v = JNull).
Proof.
  repeat split; try (destruct v; reflexivity);
    destruct v; cbn; intros; try congruence; try discriminate;
    try reflexivity.
Qed.

(** X3: the kind tokens accept exactly the values of their Python type:
    [#string] a [str], [#number] an [int], a [float] or a [bool],
    [#boolean] a [bool], [#object] a [dict], [#array] a [list]; [None]
    is of none of them. *)
Theorem kind_tokens
    (re : string -> string -> option bool) (rc : json -> string) (v : json) :
  (validate_json_schema re rc v (JStr STRING_FIELD) = success
   <-> Py.is_str v = true)
  /\ (validate_json_schema re rc v (JStr NUMBER_FIELD) = success
      <-> Py.is_number v = true)
  /\ (validate_json_schema re rc v (JStr BOOLEAN_FIELD) = success
      <-> Py.is_bool v = true)
  /\ (validate_json_schema re rc v (JStr OBJECT_FIELD) = success
      <-> Py.is_dict v = true)
  /\ (validate_json_schema re rc v (JStr ARRAY_FIELD) = success
      <-> Py.is_list v = true).
Proof.
  repeat split; destruct v; cbn; intros; try discriminate; reflexivity.
Qed.

(** ** Objects and positional arrays *)

Lemma diagnostics_seq (m k : M unit) :
  appends_only k ->
  diagnostics (m ;; k)
  = match diagnostics m with
    | Raise e => Raise e
    | Ok found =>
        match diagnostics k with
        | Raise e => Raise e
        | Ok later => Ok (found ++ later)%list
        end
    end.
Proof.
  intros Hk. unfold diagnostics, bind.
  destruct (m []) as [[[] found] | e]; [ | reflexivity ].
  rewrite (Hk found).
  destruct (k []) as [[[] later] | e]; reflexivity.
Qed.

Lemma diagnostics_for_items (body : string -> json -> M unit) :
  (forall key val, appends_only (body key val)) ->
  forall fields,
    diagnostics (for_items body fields)
    = collect (List.map (fun kv => diagnostics (body (fst kv) (snd kv)))
                 fields).
Proof.
  intros Hbody fields.
  induction fields as [ | [key val] rest IH ]; [ reflexivity | ].
  cbn [for_items List.map collect fst snd].
  rewrite diagnostics_seq, IH; [ reflexivity | ].
  apply appends_only_for_items.
  apply Forall_forall. intros kv _ k. apply Hbody.
Qed.

Lemma diagnostics_for_enumerate_zip (body : nat -> json -> json -> M unit) :
  (forall index x y, appends_only (body index x y)) ->
  forall ys xs index,
    diagnostics (for_enumerate_zip body index xs ys)
    = collect
        (List.map (fun entry =>
                     diagnostics (body (fst entry) (fst (snd entry))
                                    (snd (snd entry))))
           (enumerate_from index (List.combine xs ys))).
Proof.
  intros Hbody ys.
  induction ys as [ | y ys' IH ]; intros [ | x xs' ] index;
    try reflexivity.
  cbn [for_enumerate_zip List.combine enumerate_from List.map collect fst snd].
  rewrite diagnostics_seq, IH; [ reflexivity | ].
  apply appends_only_for_enumerate_zip.
  apply Forall_forall. intros y' _ i x'. apply Hbody.
Qed.

Lemma for_items_ext (body1 body2 : string -> json -> M unit) :
  forall fields,
    (forall key val, In (key, val) fields -> body1 key val = body2 key val) ->
    for_items body1 fields = for_items body2 fields.
Proof.
  induction fields as [ | [key val] rest IH ]; intros Hsame;
    [ reflexivity | ].
  cbn [for_items].
  rewrite (Hsame key val) by (left; reflexivity).
  rewrite IH; [ reflexivity | ].
  intros k v Hin. apply Hsame. right. exact Hin.
Qed.

(** X4: keys of the observed object that the schema does not name are
    never looked at: two observed objects that agree, under [dict.get],
    on every key of an object schema get the same result. *)
Theorem object_schema_ignores_other_keys
    (re : string -> string -> option bool) (rc : json -> string)
    (observed1 observed2 schema_fields : list (string * json)) :
  (forall key, In key (List.map fst schema_fields) ->
               Py.dict_get observed1 key = Py.dict_get observed2 key) ->
  validate_json_schema re rc (JObj observed1) (JObj schema_fields)
  = validate_json_schema re rc (JObj observed2) (JObj schema_fields).
Proof.
  intros Hsame. unfold validate_json_schema.
  cbn -[for_items].
  rewrite (for_items_ext
             (fun key val =>
                _validate_field re rc (Py.dict_get observed1 key) val
                  ("" ++ "." ++ key))
             (fun key val =>
                _validate_field re rc (Py.dict_get observed2 key) val
                  ("" ++ "." ++ key))); [ reflexivity | ].
  intros key val Hin. cbv beta.
  rewrite (Hsame key); [ reflexivity | ].
  apply in_map_iff. exists (key, val). split; [ reflexivity | exact Hin ].
Qed.

Lemma object_schema_ignores_other_keys_witness :
  validate_json_schema re_match_literal repr_opaque
    (JObj [("id", JInt 1); ("debug", JBool true)])
    (JObj [("id", JStr "#number")])
  = validate_json_schema re_match_literal repr_opaque
      (JObj [("id", JInt 1)])
      (JObj [("id", JStr "#number")]).
Proof.
  apply (object_schema_ignores_other_keys re_match_literal repr_opaque
           [("id", JInt 1); ("debug", JBool true)] [("id", JInt 1)]
           [("id", JStr "#number")]).
  intros key [<- | []]. reflexivity.
Defined.

(** X5: against an object schema, an observed value that is not a dict
    (a missing one included) yields the single diagnostic "expected
    object" and nothing below it is visited; an observed dict yields the
    diagnostics of all the schema's fields, in the order the schema
    lists them, each field checked against [dict.get] of its key under
    the path extended by [.key].  A failing field does not stop the
    walk. *)
Theorem object_schema_collects_every_field
    (re : string -> string -> option bool) (rc : json -> string)
    (schema_fields : list (string * json)) :
  (forall response path,
      Py.is_dict response = false ->
      diagnostics (_validate_field re rc response (JObj schema_fields) path)
      = Ok ["Validation Error at '" ++ path ++ "': expected object, got "
              ++ Py.type_name response ++ "."])
  /\ (forall observed path,
        diagnostics
          (_validate_field re rc (JObj observed) (JObj schema_fields) path)
        = collect
            (List.map
               (fun kv =>
                  diagnostics
                    (_validate_field re rc (Py.dict_get observed (fst kv))
                       (snd kv) (path ++ "." ++ fst kv)))
               schema_fields)).
Proof.
  split.
  - intros response path Hresp.
    destruct response; try discriminate; reflexivity.
  - intros observed path.
    rewrite <- (diagnostics_for_items
                  (fun key val =>
                     _validate_field re rc (Py.dict_get observed key) val
                       (path ++ "." ++ key)))
      by (intros; apply appends_only_validate_field).
    reflexivity.
Qed.

(** X6: a list schema that is not the one-item shorthand is positional.
    An observed value that is not a list yields the single diagnostic
    "expected array"; an observed list of another length yields the
    single diagnostic of the two lengths, and no element is compared;
    an observed list of the same length yields the diagnostics of every
    position, in order, element [i] against schema element [i]. *)
Theorem positional_array_schema
    (re : string -> string -> option bool) (rc : json -> string)
    (schema_items : list json) :
  is_positional schema_items = true ->
  (forall response path,
      Py.is_list response = false ->
      diagnostics (_validate_field re rc response (JArr schema_items) path)
      = Ok ["Validation Error at '" ++ path ++ "': expected array, got "
              ++ Py.type_name response ++ "."])
  /\ (forall items path,
        List.length items <> List.length schema_items ->
        diagnostics
          (_validate_field re rc (JArr items) (JArr schema_items) path)
        = Ok ["Validation Error at '" ++ path
                ++ "': expected array of length "
                ++ Py.str_of_nat (List.length schema_items) ++ ", got "
                ++ Py.str_of_nat (List.length items) ++ "."])
  /\ (forall items path,
        List.length items = List.length schema_items ->
        diagnostics
          (_validate_field re rc (JArr items) (JArr schema_items) path)
        = collect
            (List.map
               (fun entry =>
                  diagnostics
                    (_validate_field re rc (fst (snd entry))
                       (snd (snd entry))
                       (path ++ "[" ++ Py.str_of_nat (fst entry) ++ "]")))
               (enumerate_from O (List.combine items schema_items)))).
Proof.
  intros Hpos.
  assert (Hwalk : forall items path,
            _validate_field re rc (JArr items) (JArr schema_items) path
            = if negb (Nat.eqb (List.length items) (List.length schema_items))
              then errors_append
                     ("Validation Error at '" ++ path
                        ++ "': expected array of length "
                        ++ Py.str_of_nat (List.length schema_items)
                        ++ ", got "
                        ++ Py.str_of_nat (List.length items) ++ ".")
              else for_enumerate_zip
                     (fun index resp_item schema_item =>
                        _validate_field re rc resp_item schema_item
                          (path ++ "[" ++ Py.str_of_nat index ++ "]"))
                     O items schema_items).
  { intros items path.
    destruct schema_items as [ | [ | | | | | | ] [ | ] ];
      try discriminate; reflexivity. }
  split; [ | split ].
  - intros response path Hresp.
    destruct response; try discriminate;
      destruct schema_items as [ | [ | | | | | | ] [ | ] ];
      try discriminate; reflexivity.
  - intros items path Hlen. rewrite Hwalk.
    apply Nat.eqb_neq in Hlen. rewrite Hlen. reflexivity.
  - intros items path Hlen. rewrite Hwalk.
    apply Nat.eqb_eq in Hlen. rewrite Hlen. cbn [negb].
    apply diagnostics_for_enumerate_zip.
    intros. apply appends_only_validate_field.
Qed.

Lemma positional_array_schema_witness :
  diagnostics
    (_validate_field re_match_literal repr_opaque
       (JArr [JInt 1; JStr "y"; JStr "extra"])
       (JArr [JInt 1; JStr "#string"]) "rows")
  = Ok ["Validation Error at 'rows': expected array of length 2, got 3."].
Proof.
  apply (positional_array_schema re_match_literal repr_opaque
           [JInt 1; JStr "#string"] eq_refl).
  cbn. lia.
Defined.

(** ** What a walk adds and what it raises *)

Lemma well_behaved_ret {A} (a : A) : well_behaved (ret a).
Proof.
  intros acc. cbn. exists []. split; [ now rewrite app_nil_r | constructor ].
Qed.

Lemma well_behaved_errors_append (msg : string) :
  is_diagnostic msg -> well_behaved (errors_append msg).
Proof.
  intros Hmsg acc. cbn. exists [msg]. split; [ reflexivity | ].
  constructor; [ exact Hmsg | constructor ].
Qed.

Lemma well_behaved_raise {A} (e : pyexn) :
  is_matcher_exception e -> well_behaved (@raise A e).
Proof. intros He acc. exact He. Qed.

Lemma well_behaved_bind {A B} (m : M A) (k : A -> M B) :
  well_behaved m -> (forall a, well_behaved (k a)) -> well_behaved (bind m k).
Proof.
  intros Hm Hk acc. unfold bind. specialize (Hm acc).
  destruct (m acc) as [[a errors] | e]; [ | exact Hm ].
  destruct Hm as (added & -> & Hadded).
  specialize (Hk a (acc ++ added)%list).
  destruct (k a (acc ++ added)%list) as [[b errors'] | e]; [ | exact Hk ].
  destruct Hk as (added' & -> & Hadded').
  exists (added ++ added')%list. split; [ now rewrite app_assoc | ].
  apply Forall_app. split; assumption.
Qed.

Create HintDb walk.
#[export] Hint Resolve well_behaved_ret well_behaved_raise : walk.
#[export] Hint Extern 1 (well_behaved (errors_append _)) =>
  apply well_behaved_errors_append; reflexivity : walk.
#[export] Hint Extern 1 (is_matcher_exception (AttributeError _ _)) =>
  left; eexists; reflexivity : walk.
#[export] Hint Extern 1 (is_matcher_exception (ReError _)) =>
  right; eexists; reflexivity : walk.

Ltac walk_cases :=
  repeat match goal with
    | |- well_behaved (if ?c then _ else _) => destruct c
    | |- well_behaved (match ?x with _ => _ end) => destruct x
    | |- well_behaved (bind _ _) => apply well_behaved_bind; [ | intros ? ]
    end;
  auto with walk.

Lemma well_behaved_missing_value_guard (o : bool) (r s : json) :
  well_behaved (missing_value_guard o r s).
Proof.
  unfold missing_value_guard.
  destruct (_ && _); [ | auto with walk ].
  unfold startswith_method. walk_cases.
Qed.

Lemma well_behaved_validate_str re rc (r : json) (s path : string) :
  well_behaved (validate_str re rc r s path).
Proof. unfold validate_str. walk_cases. Qed.

Lemma well_behaved_validate_literal rc (r s : json) (path : string) :
  well_behaved (validate_literal rc r s path).
Proof. unfold validate_literal. walk_cases. Qed.

#[export] Hint Resolve well_behaved_missing_value_guard
  well_behaved_validate_str well_behaved_validate_literal : walk.

Lemma well_behaved_for_enumerate (body : nat -> json -> M unit) :
  (forall index item, well_behaved (body index item)) ->
  forall items index, well_behaved (for_enumerate body index items).
Proof.
  intros Hbody items.
  induction items as [ | item rest IH ]; intros index; cbn; walk_cases.
Qed.

Lemma well_behaved_for_enumerate_zip (body : nat -> json -> json -> M unit) :
  forall ys,
    Forall (fun y => forall index x, well_behaved (body index x y)) ys ->
    forall xs index, well_behaved (for_enumerate_zip body index xs ys).
Proof.
  intros ys Hys.
  induction Hys as [ | y ys' Hy _ IH ]; intros [ | x xs' ] index; cbn;
    walk_cases.
Qed.

Lemma well_behaved_for_items (body : string -> json -> M unit) :
  forall fields,
    Forall (fun kv => forall key, well_behaved (body key (snd kv))) fields ->
    well_behaved (for_items body fields).
Proof.
  intros fields Hfields.
  induction Hfields as [ | [key val] rest Hkv _ IH ]; cbn; walk_cases.
Qed.

Lemma well_behaved_validate_field re rc (schema : json) :
  forall response path,
    well_behaved (_validate_field re rc response schema path).
Proof.
  induction schema as [ | b | z | f | s | items IH | fields IH ]
    using json_nested_ind; intros response path.
  - cbn. walk_cases.
  - cbn. walk_cases.
  - cbn. walk_cases.
  - cbn. walk_cases.
  - cbn -[validate_str missing_value_guard strip_optional is_optional_of].
    walk_cases.
  - cbn -[missing_value_guard].
    apply well_behaved_bind; [ auto with walk | intros missing ].
    destruct missing; [ auto with walk | ].
    destruct response as [ | | | | | response_items | ];
      destruct items as [ | [ | | | | | | ] [ | ] ]; cbv beta match;
      auto with walk;
      try (destruct (negb _); auto with walk);
      try (apply well_behaved_for_enumerate_zip;
           eapply Forall_impl; [ | exact IH ]; cbn; intros; auto);
      try (apply well_behaved_for_enumerate; intros;
           inversion IH; subst; auto).
  - cbn -[missing_value_guard].
    apply well_behaved_bind; [ auto with walk | intros missing ].
    destruct missing; [ auto with walk | ].
    destruct response; auto with walk.
    apply well_behaved_for_items.
    eapply Forall_impl; [ | exact IH ]; cbn; intros; auto.
Qed.

Lemma startswith_concat (sep first p : string) (rest : list string) :
  Py.startswith first p = true ->
  Py.startswith (String.concat sep (first :: rest)) p = true.
Proof.
  intros Hfirst.
  assert (Happ : forall tail, Py.startswith (first ++ tail) p = true).
  { clear rest. revert first Hfirst.
    induction p as [ | c p' IH ]; intros first Hfirst tail;
      [ reflexivity | ].
    destruct first as [ | d first' ]; [ discriminate | ].
    cbn in *. apply andb_prop in Hfirst. destruct Hfirst as [Hd Hrest].
    rewrite Hd. cbn. now apply IH. }
  destruct rest as [ | second rest' ].
  - cbn. exact Hfirst.
  - cbn [String.concat]. apply Happ.
Qed.

(** X7: the verdict can be read off the message.  A call that returns
    [True] returns the text "Validation successful."; a call that
    returns [False] returns a text that begins with "Validation Error",
    as every diagnostic the walk produces does. *)
Theorem verdict_matches_message
    (re : string -> string -> option bool) (rc : json -> string)
    (response schema : json) (ok : bool) (message : string) :
  validate_json_schema re rc response schema = Ok (ok, message) ->
  if ok then message = "Validation successful."
  else Py.startswith message "Validation Error" = true.
Proof.
  unfold validate_json_schema.
  pose proof (well_behaved_validate_field re rc schema response "" [])
    as Hwalk.
  destruct (_validate_field re rc response schema "" [])
    as [[[] errors] | e]; [ | discriminate ].
  destruct Hwalk as (added & -> & Hadded). cbn [app].
  destruct added as [ | first rest ]; intros Hres; injection Hres as <- <-.
  - reflexivity.
  - apply (startswith_concat Py.newline first "Validation Error" rest).
    now inversion Hadded.
Qed.

Lemma verdict_matches_message_witness :
  Py.startswith "Validation Error at '.a': expected string, got int."
    "Validation Error" = true.
Proof.
  apply (verdict_matches_message re_match_literal repr_opaque
           (JObj [("a", JInt 5)]) (JObj [("a", JStr "#string")]) false).
  reflexivity.
Defined.

(** ** Schemas on which line 43 cannot raise *)

Lemma never_attribute_error_ret {A} (a : A) : never_attribute_error (ret a).
Proof. intros acc t attr. discriminate. Qed.

Lemma never_attribute_error_errors_append (msg : string) :
  never_attribute_error (errors_append msg).
Proof. intros acc t attr. discriminate. Qed.

Lemma never_attribute_error_re_error {A} (pattern : string) :
  never_attribute_error (@raise A (ReError pattern)).
Proof. intros acc t attr. discriminate. Qed.

Lemma never_attribute_error_bind {A B} (m : M A) (k : A -> M B) :
  never_attribute_error m ->
  (forall a, never_attribute_error (k a)) ->
  never_attribute_error (bind m k).
Proof.
  intros Hm Hk acc t attr. unfold bind.
  destruct (m acc) as [[a errors] | e] eqn:Hrun.
  - apply Hk.
  - intros Heq. injection Heq as ->. exact (Hm acc t attr Hrun).
Qed.

Create HintDb line43.
#[export] Hint Resolve never_attribute_error_ret
  never_attribute_error_errors_append never_attribute_error_re_error : line43.

Ltac line43_cases :=
  repeat match goal with
    | |- never_attribute_error (if ?c then _ else _) => destruct c
    | |- never_attribute_error (match ?x with _ => _ end) => destruct x
    | |- never_attribute_error (bind _ _) =>
        apply never_attribute_error_bind; [ | intros ? ]
    end;
  auto with line43.

Lemma never_attribute_error_missing_value_guard (o : bool) (r s : json) :
  strings_and_containers s = true ->
  never_attribute_error (missing_value_guard o r s).
Proof.
  intros Hs. unfold missing_value_guard.
  destruct s; try discriminate; destruct o, r; cbn;
    rewrite ?andb_false_r; auto with line43.
Qed.

Lemma never_attribute_error_validate_str re rc (r : json) (s path : string) :
  never_attribute_error (validate_str re rc r s path).
Proof. unfold validate_str. line43_cases. Qed.

Lemma never_attribute_error_for_enumerate (body : nat -> json -> M unit) :
  (forall index item, never_attribute_error (body index item)) ->
  forall items index, never_attribute_error (for_enumerate body index items).
Proof.
  intros Hbody items.
  induction items as [ | item rest IH ]; intros index; cbn; line43_cases.
Qed.

Lemma never_attribute_error_for_enumerate_zip
    (body : nat -> json -> json -> M unit) :
  forall ys,
    Forall (fun y => forall index x, never_attribute_error (body index x y))
      ys ->
    forall xs index,
      never_attribute_error (for_enumerate_zip body index xs ys).
Proof.
  intros ys Hys.
  induction Hys as [ | y ys' Hy _ IH ]; intros [ | x xs' ] index; cbn;
    line43_cases.
Qed.

Lemma never_attribute_error_for_items (body : string -> json -> M unit) :
  forall fields,
    Forall (fun kv => forall key, never_attribute_error (body key (snd kv)))
      fields ->
    never_attribute_error (for_items body fields).
Proof.
  intros fields Hfields.
  induction Hfields as [ | [key val] rest Hkv _ IH ]; cbn; line43_cases.
Qed.

Lemma never_attribute_error_validate_field re rc (schema : json) :
  strings_and_containers schema = true ->
  forall response path,
    never_attribute_error (_validate_field re rc response schema path).
Proof.
  induction schema as [ | b | z | f | s | items IH | fields IH ]
    using json_nested_ind; intros Hschema response path;
    try discriminate.
  - cbn -[validate_str missing_value_guard strip_optional is_optional_of].
    assert (Hguard : forall o,
               never_attribute_error
                 (missing_value_guard o response (strip_optional (JStr s)))).
    { intros o. apply never_attribute_error_missing_value_guard.
      unfold strip_optional. destruct (Py.startswith _ _); reflexivity. }
    repeat match goal with
      | |- never_attribute_error (if ?c then _ else _) => destruct c
      | |- never_attribute_error (bind _ _) =>
          apply never_attribute_error_bind; [ | intros ? ]
      | |- never_attribute_error (match strip_optional ?x with _ => _ end) =>
          destruct (strip_optional x)
      end;
    auto using never_attribute_error_validate_str with line43.
  - cbn [strings_and_containers] in Hschema.
    rewrite forallb_forall in Hschema.
    assert (IH' : Forall (fun item =>
                            forall response path,
                              never_attribute_error
                                (_validate_field re rc response item path))
                    items).
    { apply Forall_forall. intros item Hin.
      rewrite Forall_forall in IH. apply (IH item Hin). now apply Hschema. }
    cbn -[missing_value_guard].
    apply never_attribute_error_bind;
      [ now apply never_attribute_error_missing_value_guard; cbn;
          apply forallb_forall
      | intros missing ].
    destruct missing; [ auto with line43 | ].
    destruct response as [ | | | | | response_items | ];
      destruct items as [ | [ | | | | | | ] [ | ] ]; cbv beta match;
      auto with line43;
      try (destruct (negb _); auto with line43);
      try (apply never_attribute_error_for_enumerate_zip;
           eapply Forall_impl; [ | exact IH' ]; cbn; intros; auto);
      try (apply never_attribute_error_for_enumerate; intros;
           inversion IH'; subst; auto).
  - cbn [strings_and_containers] in Hschema.
    rewrite forallb_forall in Hschema.
    cbn -[missing_value_guard].
    apply never_attribute_error_bind;
      [ now apply never_attribute_error_missing_value_guard; cbn;
          apply forallb_forall
      | intros missing ].
    destruct missing; [ auto with line43 | ].
    destruct response; auto with line43.
    apply never_attribute_error_for_items.
    apply Forall_forall. intros kv Hin key.
    rewrite Forall_forall in IH. apply (IH kv Hin). now apply Hschema.
Qed.

(** X8: when every node of the schema is a string, an object or an
    array, [validate_json_schema] never raises [AttributeError], for
    every observed value and whatever [re.match] does: the [startswith]
    of line 43 is then only ever looked up on a string, so a missing
    key cannot make the call fail that way. *)
Theorem string_schemas_never_raise_attribute_error
    (re : string -> string -> option bool) (rc : json -> string)
    (schema : json) :
  strings_and_containers schema = true ->
  forall response type_name attribute,
    validate_json_schema re rc response schema
    <> Raise (AttributeError type_name attribute).
Proof.
  intros Hschema response type_name attribute. unfold validate_json_schema.
  pose proof (never_attribute_error_validate_field re rc schema Hschema
                response "" [] type_name attribute) as Hwalk.
  destruct (_validate_field re rc response schema "" [])
    as [[[] errors] | e].
  - destruct errors; discriminate.
  - intros Heq. injection Heq as ->. now apply Hwalk.
Qed.

Lemma string_schemas_never_raise_attribute_error_witness :
  validate_json_schema re_match_literal repr_opaque
    (JObj [])
    (JObj [("id", JStr "#number"); ("tags", JArr [JStr "#string"])])
  <> Raise (AttributeError "NoneType" "startswith").
Proof.
  apply (string_schemas_never_raise_attribute_error
           re_match_literal repr_opaque
           (JObj [("id", JStr "#number"); ("tags", JArr [JStr "#string"])])).
  reflexivity.
Defined.

(** ** The fixture loader, continued *)

(** X10: whatever [get_abs_file_path] returns is the resolved form of a
    path for which [is_file] holds: it never returns a directory, a
    missing path or an empty result. *)
Theorem get_abs_file_path_returns_a_file
    (fs : filesystem) (pattern dir path : string) :
  get_abs_file_path fs pattern dir = Ok path ->
  exists f, is_file fs f = true /\ path = resolve fs f.
Proof.
  unfold get_abs_file_path.
  destruct (is_file fs pattern) eqn:Hpat.
  - intros H. injection H as <-. now exists pattern.
  - destruct (List.filter (is_file fs) (rglob fs dir pattern))
      as [ | f rest ] eqn:Hfound.
    + discriminate.
    + destruct rest; [ | discriminate ].
      cbn. intros H. injection H as <-. exists f. split; [ | reflexivity ].
      assert (Hin : In f (List.filter (is_file fs) (rglob fs dir pattern)))
        by (rewrite Hfound; left; reflexivity).
      apply filter_In in Hin. tauto.
Qed.

Lemma get_abs_file_path_returns_a_file_witness :
  exists f,
    is_file fs_example f = true
    /\ "/srv/bdd/resources/HK/user.json" = resolve fs_example f.
Proof.
  apply (get_abs_file_path_returns_a_file fs_example "user.json" "resources").
  reflexivity.
Defined.

(** ** The schema loader *)

Lemma descend_app (doc : json) (keys more : list string) :
  descend doc (keys ++ more)
  = match descend doc keys with
    | Ok inner => descend inner more
    | Raise e => Raise e
    end.
Proof.
  revert doc. induction keys as [ | key rest IH ]; intros doc;
    [ reflexivity | ].
  cbn [app descend]. destruct (get_or_empty doc key); [ apply IH | reflexivity ].
Qed.

Lemma descend_empty_object (keys : list string) :
  descend (JObj []) keys = Ok (JObj []).
Proof. induction keys as [ | key rest IH ]; [ reflexivity | exact IH ]. Qed.

(** X11: a reference whose dotted path names a key that the object
    reached so far does not have resolves to the empty object, however
    many keys follow, and nothing is raised; the empty object as schema
    then accepts every observed object. *)
Theorem missing_reference_key_gives_empty_schema
    (json_load : string -> option json)
    (os_path_join : string -> string -> string) (RESOURCES : string)
    (fs : filesystem) (rsp_content country filename file_path key : string)
    (keys more : list string) (doc : json) (fields : list (string * json)) :
  split_char "." rsp_content = filename :: (keys ++ key :: more)%list ->
  get_abs_file_path fs (filename ++ ".json") (os_path_join RESOURCES country)
  = Ok file_path ->
  fst (read_json_file json_load fs file_path) = Ok doc ->
  descend doc keys = Ok (JObj fields) ->
  dict_lookup fields key = None ->
  get_schema_response json_load os_path_join RESOURCES fs rsp_content country
  = Ok (JObj [])
  /\ (forall re rc observed,
        validate_json_schema re rc (JObj observed) (JObj []) = success).
Proof.
  intros Hsplit Hpath Hread Hdoc Hkey. split; [ | reflexivity ].
  unfold get_schema_response. rewrite Hsplit. cbn [List.hd List.tl].
  rewrite Hpath, Hread, descend_app, Hdoc.
  cbn [descend get_or_empty]. rewrite Hkey. apply descend_empty_object.
Qed.

Lemma missing_reference_key_gives_empty_schema_witness :
  get_schema_response json_load_example os_path_join_example "resources"
    fs_loader_example "user.login.tokn.value" "HK"
  = Ok (JObj []).
Proof.
  apply (missing_reference_key_gives_empty_schema
           json_load_example os_path_join_example "resources"
           fs_loader_example "user.login.tokn.value" "HK" "user"
           "/srv/bdd/resources/HK/user.json" "tokn" ["login"] ["value"]
           user_document
           [("token", JStr "#string"); ("expires", JStr "#number")]);
    reflexivity.
Defined.

(** X12: a reference that goes on below a value that is not an object
    (a list, a string, a number, a boolean or null in the document)
    raises [AttributeError] for the missing method [get]; the default
    of the empty object applies to missing keys only. *)
Theorem reference_below_a_non_object_raises
    (json_load : string -> option json)
    (os_path_join : string -> string -> string) (RESOURCES : string)
    (fs : filesystem) (rsp_content country filename file_path key : string)
    (keys more : list string) (doc reached : json) :
  split_char "." rsp_content = filename :: (keys ++ key :: more)%list ->
  get_abs_file_path fs (filename ++ ".json") (os_path_join RESOURCES country)
  = Ok file_path ->
  fst (read_json_file json_load fs file_path) = Ok doc ->
  descend doc keys = Ok reached ->
  Py.is_dict reached = false ->
  get_schema_response json_load os_path_join RESOURCES fs rsp_content country
  = Raise (AttributeError (Py.type_name reached) "get").
Proof.
  intros Hsplit Hpath Hread Hdoc Hreached.
  unfold get_schema_response. rewrite Hsplit. cbn [List.hd List.tl].
  rewrite Hpath, Hread, descend_app, Hdoc.
  destruct reached; try discriminate; reflexivity.
Qed.

Lemma reference_below_a_non_object_raises_witness :
  get_schema_response json_load_example os_path_join_example "resources"
    fs_loader_example "user.errors.first" "HK"
  = Raise (AttributeError "list" "get").
Proof.
  apply (reference_below_a_non_object_raises
           json_load_example os_path_join_example "resources"
           fs_loader_example "user.errors.first" "HK" "user"
           "/srv/bdd/resources/HK/user.json" "first" ["errors"] []
           user_document (JArr [JStr "#string"]));
    reflexivity.
Defined.

(** ** Values picked out of a response *)

Lemma split_char_not_empty (sep : ascii) (s : string) :
  split_char sep s <> [].
Proof.
  destruct s as [ | c s' ]; cbn; [ discriminate | ].
  destruct (Ascii.eqb c sep); [ discriminate | ].
  destruct (split_char sep s'); discriminate.
Qed.

Lemma get_keys_loop_not_none
    (index_split : string -> list string) (py_int : string -> option Z)
    (str_item : string -> Z -> option string) (all_keys : list string) :
  forall keys value v,
    StrHandle.get_keys_loop index_split py_int str_item all_keys value keys
    = StrHandle.Returns v ->
    value <> JNull \/ keys <> [] ->
    v <> JNull.
Proof.
  induction keys as [ | key rest IH ]; intros value v Hloop Hstart.
  - cbn in Hloop. injection Hloop as <-. destruct Hstart; congruence.
  - cbn [StrHandle.get_keys_loop] in Hloop.
    destruct (StrHandle.customize_get index_split py_int str_item key value)
      as [found | e]; [ | discriminate ].
    destruct found; try discriminate;
      (eapply IH; [ exact Hloop | left; discriminate ]).
Qed.

(** X13: [get_keys_value] never returns [None]: when it returns, the
    value is not null, whichever keys, indices and response it was
    given. *)
Theorem get_keys_value_never_returns_none
    (index_split : string -> list string) (py_int : string -> option Z)
    (str_item : string -> Z -> option string)
    (keys : string) (dict_obj v : json) :
  StrHandle.get_keys_value index_split py_int str_item keys dict_obj
  = StrHandle.Returns v ->
  v <> JNull.
Proof.
  unfold StrHandle.get_keys_value. intros Hloop.
  eapply get_keys_loop_not_none; [ exact Hloop | ].
  right. apply split_char_not_empty.
Qed.

Lemma get_keys_value_never_returns_none_witness : JInt 7 <> JNull.
Proof.
  apply (get_keys_value_never_returns_none
           StrHandle.index_split_example StrHandle.py_int_example
           StrHandle.str_item_example "data.id"
           (JObj [("data", JObj [("id", JInt 7)])])).
  reflexivity.
Defined.

(** X14: a first key without an index that the response object does
    not have, or has with the value null, makes [get_keys_value] raise
    the [ValueError] that names the whole list of keys; a missing key
    and a null value are not told apart. *)
Theorem get_keys_value_missing_or_null_key
    (index_split : string -> list string) (py_int : string -> option Z)
    (str_item : string -> Z -> option string)
    (keys key : string) (more : list string)
    (fields : list (string * json)) :
  split_char "." keys = key :: more ->
  StrHandle.contains key "[" && StrHandle.contains key "]" = false ->
  Py.dict_get fields key = JNull ->
  StrHandle.get_keys_value index_split py_int str_item keys (JObj fields)
  = StrHandle.Raises (StrHandle.ValueErrorTarget (key :: more)).
Proof.
  intros Hsplit Hplain Hget.
  unfold StrHandle.get_keys_value. rewrite Hsplit.
  cbn [StrHandle.get_keys_loop]. unfold StrHandle.customize_get.
  rewrite Hplain. cbn [StrHandle.method_get]. rewrite Hget. reflexivity.
Qed.

Lemma get_keys_value_missing_or_null_key_witness :
  StrHandle.get_keys_value StrHandle.index_split_example
    StrHandle.py_int_example StrHandle.str_item_example
    "data.id" (JObj [("data", JNull)])
  = StrHandle.Raises (StrHandle.ValueErrorTarget ["data"; "id"])
  /\ StrHandle.get_keys_value StrHandle.index_split_example
       StrHandle.py_int_example StrHandle.str_item_example
       "data.id" (JObj [("user", JInt 1)])
     = StrHandle.Raises (StrHandle.ValueErrorTarget ["data"; "id"]).
Proof.
  split.
  - apply (get_keys_value_missing_or_null_key
             StrHandle.index_split_example StrHandle.py_int_example
             StrHandle.str_item_example "data.id" "data" ["id"]
             [("data", JNull)]); reflexivity.
  - apply (get_keys_value_missing_or_null_key
             StrHandle.index_split_example StrHandle.py_int_example
             StrHandle.str_item_example "data.id" "data" ["id"]
             [("user", JInt 1)]); reflexivity.
Defined.

(** X15: a first key that carries an index, such as [items[0]], makes
    [get_keys_value] raise the [ValueError] of [int] whenever [int]
    rejects the first part [re.split] returns (the text in front of
    the index), whatever the response object holds: every part of the
    split, not only the digits, is converted with [int]. *)
Theorem get_keys_value_indexed_key_raises
    (index_split : string -> list string) (py_int : string -> option Z)
    (str_item : string -> Z -> option string)
    (keys mode text : string) (more parts : list string)
    (fields : list (string * json)) :
  split_char "." keys = mode :: more ->
  StrHandle.contains mode "[" = true ->
  StrHandle.contains mode "]" = true ->
  index_split mode = text :: parts ->
  py_int text = None ->
  StrHandle.get_keys_value index_split py_int str_item keys (JObj fields)
  = StrHandle.Raises (StrHandle.ValueErrorInt text).
Proof.
  intros Hsplit Hopen Hclose Hparts Hint.
  unfold StrHandle.get_keys_value. rewrite Hsplit.
  cbn [StrHandle.get_keys_loop]. unfold StrHandle.customize_get.
  rewrite Hopen, Hclose, Hparts. cbn [andb StrHandle.method_get].
  cbn [StrHandle.index_by_parts]. rewrite Hint. reflexivity.
Qed.

Lemma get_keys_value_indexed_key_raises_witness :
  StrHandle.get_keys_value StrHandle.index_split_example
    StrHandle.py_int_example StrHandle.str_item_example
    "items[0].id" (JObj [("items", JArr [JObj [("id", JInt 7)]])])
  = StrHandle.Raises (StrHandle.ValueErrorInt "items").
Proof.
  apply (get_keys_value_indexed_key_raises
           StrHandle.index_split_example StrHandle.py_int_example
           StrHandle.str_item_example "items[0].id" "items[0]" "items"
           ["id"] ["0"; ""]
           [("items", JArr [JObj [("id", JInt 7)]])]);
    reflexivity.
Defined.

Lemma dict_lookup_of_get (fields : list (string * json)) (key : string) :
  Py.dict_get fields key <> JNull ->
  dict_lookup fields key = Some (Py.dict_get fields key).
Proof.
  induction fields as [ | [k v] rest IH ]; cbn; [ congruence | ].
  destruct (String.eqb k key); [ reflexivity | exact IH ].
Qed.

Lemma get_keys_loop_descend
    (index_split : string -> list string) (py_int : string -> option Z)
    (str_item : string -> Z -> option string) (all_keys : list string) :
  forall keys value v,
    Forall (fun key =>
              StrHandle.contains key "[" && StrHandle.contains key "]"
              = false) keys ->
    StrHandle.get_keys_loop index_split py_int str_item all_keys value keys
    = StrHandle.Returns v ->
    descend value keys = Ok v.
Proof.
  induction keys as [ | key rest IH ]; intros value v Hplain Hloop.
  - cbn in Hloop. injection Hloop as <-. reflexivity.
  - inversion Hplain as [ | ? ? Hkey Hrest ]; subst.
    cbn [StrHandle.get_keys_loop] in Hloop.
    unfold StrHandle.customize_get in Hloop. rewrite Hkey in Hloop.
    destruct value as [ | | | | | | fields ]; try discriminate.
    cbn [StrHandle.method_get] in Hloop.
    cbn [descend get_or_empty].
    destruct (Py.dict_get fields key) eqn:Hget; try discriminate;
      (rewrite dict_lookup_of_get by (rewrite Hget; discriminate);
       rewrite Hget; apply IH; assumption).
Qed.

(** X16: the two dotted descents agree where both apply: when
    [get_keys_value] returns a value for keys that carry no index, the
    same keys followed by the schema loader's descent through the same
    document reach the same value. *)
Theorem get_keys_value_agrees_with_descend
    (index_split : string -> list string) (py_int : string -> option Z)
    (str_item : string -> Z -> option string)
    (keys : string) (dict_obj v : json) :
  Forall (fun key =>
            StrHandle.contains key "[" && StrHandle.contains key "]" = false)
    (split_char "." keys) ->
  StrHandle.get_keys_value index_split py_int str_item keys dict_obj
  = StrHandle.Returns v ->
  descend dict_obj (split_char "." keys) = Ok v.
Proof.
  intros Hplain Hvalue.
  eapply get_keys_loop_descend; [ exact Hplain | exact Hvalue ].
Qed.

Lemma get_keys_value_agrees_with_descend_witness :
  descend (JObj [("data", JObj [("id", JInt 7)])]) (split_char "." "data.id")
  = Ok (JInt 7).
Proof.
  apply (get_keys_value_agrees_with_descend
           StrHandle.index_split_example StrHandle.py_int_example
           StrHandle.str_item_example "data.id"
           (JObj [("data", JObj [("id", JInt 7)])]) (JInt 7)).
  - repeat constructor.
  - reflexivity.
Defined.
